(** * Disaster-prone area classifier: a model of [disaster_model.py]

    The repository is one Streamlit script.  Every interaction of the user
    re-runs the script from its first line; the script writes elements to
    the page, calls a pickled classifier, builds a folium map, saves it to
    [disaster_risk_map.html] and reads that file back.

    The development follows the script section by section:
    - [Py]     : the Python values the script computes with (unbounded
                 integers, binary64 floats, mixed arithmetic, [str]);
    - [folium] : the map object the script builds;
    - [st]     : the page elements and the calls the script makes, and the
                 monad the script runs in (state is kept when an exception
                 is raised, as in Python);
    - [App]    : the script itself, line by line, and a session of runs. *)

From Stdlib Require Import ZArith List String Ascii Bool Lia.
From Stdlib Require Import Decimal DecimalString DecimalPos DecimalZ.
From Stdlib Require Import Floats.SpecFloat.
Import ListNotations.

Local Open Scope string_scope.
Local Open Scope Z_scope.

(* ===================================================================== *)
(** ** Python values *)
(* ===================================================================== *)

Module Py.

(** A Python [float] is an IEEE 754 binary64 number: 53 bits of
    precision, exponents below 1024.  [spec_float] is the Standard
    Library's executable specification of these numbers; two values are
    equal exactly when they are the same bit pattern (NaN payloads
    apart, which [spec_float] does not carry). *)
Definition float : Set := spec_float.
Definition prec : Z := 53.
Definition emax : Z := 1024.

(** [float(n)]: the integer rounded to the nearest binary64 number
    (exact below 2^53). *)
Definition float_of_int (n : Z) : float := binary_normalize prec emax n 0 false.

Definition fmul : float -> float -> float := SFmul prec emax.
Definition fadd : float -> float -> float := SFadd prec emax.
Definition fdiv : float -> float -> float := SFdiv prec emax.
Definition fleb : float -> float -> bool := SFleb.

(** The decimal literal with digits [m] and [k] digits after the point,
    as in [0.3 = float_lit 3 1] and [25.9 = float_lit 259 1].  Python
    reads a literal as the binary64 number nearest to the decimal; the
    IEEE quotient of the integers [m] and [10^k], both below 2^53 and so
    converted without loss, is that same number. *)
Definition float_lit (m : Z) (k : Z) : float :=
  fdiv (float_of_int m) (float_of_int (10 ^ k)).

(** [x] is the zero of sign [sx], or a finite number of that sign whose
    magnitude [m * 2^e] is below [2^k] (neither an infinity nor a NaN). *)
Definition finite_below (sx : bool) (k : Z) (x : float) : Prop :=
  x = S754_zero sx
  \/ exists (m : positive) (e : Z), x = S754_finite sx m e /\ Z.pos m < 2 ^ (k - e).

(** The exponent of [x], when it is finite and not zero, is at most [c]. *)
Definition exponent_at_most (c : Z) (x : float) : Prop :=
  match x with
  | S754_finite _ _ e => e <= c
  | _ => True
  end.

(** Numbers as the script holds them: the integer widgets return [int],
    the float widgets return [float]. *)
Inductive num : Set :=
| Int (n : Z)
| Float (x : float).

Definition to_float (v : num) : float :=
  match v with
  | Int n => float_of_int n
  | Float x => x
  end.

(** [a * b] and [a + b]: integer arithmetic on two integers (unbounded,
    no wrap-around), float arithmetic as soon as one operand is a float,
    the integer operand being converted first. *)
Definition mul (a b : num) : num :=
  match a, b with
  | Int x, Int y => Int (x * y)
  | _, _ => Float (fmul (to_float a) (to_float b))
  end.

Definition add (a b : num) : num :=
  match a, b with
  | Int x, Int y => Int (x + y)
  | _, _ => Float (fadd (to_float a) (to_float b))
  end.

(** [str(n)] of an integer: its decimal digits, a minus sign before a
    negative one. *)
Definition str_int (n : Z) : string := NilZero.string_of_int (Z.to_int n).

(** [str(v)], as an f-string formats a number.  The shortest-digits
    printing of a float is not modelled: it is taken as a parameter. *)
Definition str (repr_float : float -> string) (v : num) : string :=
  match v with
  | Int n => str_int n
  | Float x => repr_float x
  end.

(** Exceptions (instances of [Exception]) with the text [str(e)]. *)
Inductive exn : Set := Exception (msg : string).

Definition str_exn (e : exn) : string :=
  match e with Exception msg => msg end.

(** The result of a call into a library: a value, or an exception. *)
Inductive result (A : Type) : Type :=
| Returns (a : A)
| Raises (e : exn).
Arguments Returns {A} a.
Arguments Raises {A} e.

(** [xs[0]] on the sequence of labels [predict] returns, with the message
    a Python list gives when it is empty. *)
Definition getitem0 {A : Type} (xs : list A) : result A :=
  match xs with
  | x :: _ => Returns x
  | [] => Raises (Exception "list index out of range")
  end.

(** [s.startswith(pre)] *)
Fixpoint startswith (pre s : string) : bool :=
  match pre with
  | EmptyString => true
  | String a pre' =>
      match s with
      | EmptyString => false
      | String b s' => Ascii.eqb a b && startswith pre' s'
      end
  end.

(** A string made of decimal digits only. *)
Definition is_digit (c : ascii) : bool :=
  let n := N_of_ascii c in (48 <=? n)%N && (n <=? 57)%N.

Fixpoint all_digits (s : string) : bool :=
  match s with
  | EmptyString => true
  | String c s' => is_digit c && all_digits s'
  end.

End Py.

(* ===================================================================== *)
(** ** The folium map object *)
(* ===================================================================== *)

Module folium.

Record Icon : Set := { icon_color : string; icon_name : string }.

(** [popup=] takes a [folium.Popup] (the marker) or a plain string (the
    circles). *)
Inductive popup : Set :=
| Popup (html : string) (max_width : Z)
| PopupText (text : string).

Inductive layer : Set :=
| Marker (location : list Py.float) (pop : popup) (icon : Icon)
| Circle (location : list Py.float) (radius : Z) (color : string)
         (fill : bool) (fill_opacity : Py.float) (pop : popup).

Record Map : Set := {
  map_location : list Py.float;
  zoom_start : Z;
  tiles : string;
  children : list layer
}.

(** [layer.add_to(map_object)] appends the layer to the map's children. *)
Definition add_to (l : layer) (m : Map) : Map :=
  {| map_location := map_location m;
     zoom_start := zoom_start m;
     tiles := tiles m;
     children := children m ++ [l] |}.

Definition is_circle (l : layer) : bool :=
  match l with Circle _ _ _ _ _ _ => true | Marker _ _ _ => false end.

Definition is_marker (l : layer) : bool := negb (is_circle l).

Definition circles (m : Map) : list layer := filter is_circle (children m).
Definition markers (m : Map) : list layer := filter is_marker (children m).

(** The calls into folium the script makes, each of which may raise. *)
Inductive call : Set :=
| call_Map
| call_Marker
| call_Circle (state : string)
| call_save
| call_folium_static.

End folium.

(* ===================================================================== *)
(** ** Streamlit: page elements, calls, and the monad of a script run *)
(* ===================================================================== *)

Module st.

(** What a run leaves behind, in order: the elements written to the page
    and the calls made into the model and into folium (a call is logged
    when it is made, whether it returns or raises). *)
Inductive event : Set :=
| set_page_config (page_title layout : string)
| title (body : string)
| markdown (body : string)
| header (body : string)
| subheader (body : string)
| form (key : string)
| success (body : string)
| error (body : string)
| warning (body : string)
| map_widget (m : folium.Map)
| components_html (html : string) (height : Z) (scrolling : bool)
| predict_called (rows : list (list Py.num))
| folium_called (c : folium.call).

(** The classifier unpickled from [disaster_model.pkl]: opaque, with the
    one method [predict(rows)], which returns the labels or raises. *)
Record Model : Type := { predict : list (list Py.num) -> Py.result (list string) }.

(** What is found under a file name that exists: a document that
    [open(..., "r", encoding="utf-8")] and [read()] give back as text, or
    something for which one of the two raises (bytes that are not UTF-8, a
    file without read permission, a directory). *)
Inductive file : Set :=
| Document (text : string)
| Unreadable (e : Py.exn).

(** The state a run works on: the page log, the file
    [disaster_risk_map.html] ([None] when it does not exist) and the
    process-wide [st.cache_resource] slot of [load_model] ([None] until
    the function has returned once, then its return value for ever). *)
Record state : Type := {
  log : list event;
  map_html : option file;
  cache : option (option Model)
}.

(** How a piece of script ends: normally, with an exception travelling
    upwards, or stopped by [st.stop()] (which no [except Exception]
    catches). *)
Inductive outcome (A : Type) : Type :=
| Done (a : A)
| Raised (e : Py.exn)
| Stopped.
Arguments Done {A} a.
Arguments Raised {A} e.
Arguments Stopped {A}.

Definition M (A : Type) : Type := state -> outcome A * state.

Definition ret {A} (a : A) : M A := fun s => (Done a, s).

Definition bind {A B} (m : M A) (k : A -> M B) : M B :=
  fun s =>
    match m s with
    | (Done a, s') => k a s'
    | (Raised e, s') => (Raised e, s')
    | (Stopped, s') => (Stopped, s')
    end.

Definition raise {A} (e : Py.exn) : M A := fun s => (Raised e, s).

(** [st.stop()] *)
Definition stop {A} : M A := fun s => (Stopped, s).

(** [try: body except Exception as e: handler(e)] *)
Definition try_except {A} (body : M A) (handler : Py.exn -> M A) : M A :=
  fun s =>
    match body s with
    | (Raised e, s') => handler e s'
    | r => r
    end.

Definition emit (ev : event) : M unit :=
  fun s => (Done tt, {| log := log s ++ [ev]; map_html := map_html s; cache := cache s |}).

Definition lift {A} (r : Py.result A) : M A :=
  match r with
  | Py.Returns a => ret a
  | Py.Raises e => raise e
  end.

Definition get_map_html : M (option file) := fun s => (Done (map_html s), s).

Definition put_map_html (f : option file) : M unit :=
  fun s => (Done tt, {| log := log s; map_html := f; cache := cache s |}).

Definition get_cache : M (option (option Model)) := fun s => (Done (cache s), s).

Definition put_cache (c : option Model) : M unit :=
  fun s => (Done tt, {| log := log s; map_html := map_html s; cache := Some c |}).

(** [with open(path, "r", encoding="utf-8") as f: f.read()] on a file
    that exists. *)
Definition read_file (f : file) : M string :=
  match f with
  | Document text => ret text
  | Unreadable e => raise e
  end.

(** [for x in xs: acc = f(acc, x)] *)
Fixpoint for_each {A B} (xs : list A) (f : B -> A -> M B) (acc : B) : M B :=
  match xs with
  | [] => ret acc
  | x :: xs' => bind (f acc x) (for_each xs' f)
  end.

End st.

Declare Scope script_scope.
Delimit Scope script_scope with script.
Notation "x <- m ;; k" := (st.bind m (fun x => k))
  (at level 61, m at next level, right associativity) : script_scope.
Notation "m ;; k" := (st.bind m (fun _ => k))
  (at level 61, right associativity) : script_scope.

(* ===================================================================== *)
(** ** The script *)
(* ===================================================================== *)

Module App.
Import st.
Local Open Scope script_scope.

(** What lies outside the script during one run. *)
Record env : Type := {
  (** [disaster_model.pkl]: [None] when the file does not exist, else
      what [joblib.load] does with it: it raises, or returns the object
      that was pickled, which is Python's [None] or a classifier. *)
  model_pkl : option (Py.result (option Model));
  (** Which folium calls raise in this run. *)
  fault : folium.call -> option Py.exn;
  (** The text of the document [map_object.save] writes for a map. *)
  html_of : folium.Map -> string;
  (** What a [save] that raises leaves of the file that was there. *)
  failed_save_leaves : option file -> option file;
  (** Python's printing of a float. *)
  repr_float : Py.float -> string
}.

(** The values of the form's widgets (lines 42 to 49).  The sliders and
    number inputs built from integer bounds return [int], those built
    from float bounds return [float]. *)
Record RegionInput : Set := {
  disaster_score : Z;
  pop_density : Z;
  latitude : Py.float;
  urban_level : Py.float;
  houses_affected : Z;
  deaths : Z;
  longitude : Py.float
}.

Definition between (lo x hi : Py.float) : Prop :=
  Py.fleb lo x = true /\ Py.fleb x hi = true.

(** The bounds the widgets enforce. *)
Definition in_form_ranges (r : RegionInput) : Prop :=
  0 <= disaster_score r <= 10 /\
  0 <= pop_density r <= 20000 /\
  between (Py.float_lit 50 1) (latitude r) (Py.float_lit 400 1) /\
  between (Py.float_lit 0 1) (urban_level r) (Py.float_lit 10 1) /\
  0 <= houses_affected r <= 10000 /\
  0 <= deaths r <= 1000 /\
  between (Py.float_lit 650 1) (longitude r) (Py.float_lit 1000 1).

(** Lines 58 and 59. *)
Definition risk_index (r : RegionInput) : Py.num :=
  Py.add
    (Py.add (Py.mul (Py.Int (disaster_score r)) (Py.Float (Py.float_lit 5 1)))
            (Py.mul (Py.Int (pop_density r)) (Py.Float (Py.float_lit 3 1))))
    (Py.mul (Py.Float (urban_level r)) (Py.Float (Py.float_lit 2 1))).

Definition damage_scale (r : RegionInput) : Py.num :=
  Py.add (Py.Int (houses_affected r)) (Py.mul (Py.Int (deaths r)) (Py.Int 10)).

(** Lines 61 to 64. *)
Definition input_features (r : RegionInput) : list (list Py.num) :=
  [[ Py.Int (disaster_score r); Py.Int (pop_density r); Py.Float (urban_level r);
     Py.Int (houses_affected r); Py.Int (deaths r); risk_index r; damage_scale r ]].

(** Line 87. *)
Definition icon_color_of (prediction : string) : string :=
  if String.eqb prediction "High" then "red"
  else if String.eqb prediction "Medium" then "orange"
  else "green".

(** Lines 93 to 99; a dict is iterated in insertion order. *)
Definition high_risk_states : list (string * list Py.float) :=
  [ ("Bihar", [Py.float_lit 259 1; Py.float_lit 851 1]);
    ("Assam", [Py.float_lit 262 1; Py.float_lit 917 1]);
    ("Odisha", [Py.float_lit 209 1; Py.float_lit 851 1]);
    ("Uttarakhand", [Py.float_lit 301 1; Py.float_lit 793 1]);
    ("Tamil Nadu", [Py.float_lit 111 1; Py.float_lit 787 1]) ].

Definition map_file : string := "disaster_risk_map.html".

Definition model_missing_message : string :=
  "❌ Model file not found. Please ensure 'disaster_model.pkl' is available in the app directory.".

Definition map_missing_message : string :=
  "⚠️ Full map file 'disaster_risk_map.html' not found.".

Definition prediction_failed (e : Py.exn) : string :=
  "❌ Prediction failed: " ++ Py.str_exn e.

Definition popup_text (w : env) (prediction : string) (r : RegionInput) : string :=
  "<b>Risk Level:</b> " ++ prediction ++ "<br><b>Damage Scale:</b> "
    ++ Py.str (repr_float w) (damage_scale r).

Definition user_marker (w : env) (prediction : string) (r : RegionInput) : folium.layer :=
  folium.Marker [latitude r; longitude r]
    (folium.Popup (popup_text w prediction r) 250)
    {| folium.icon_color := icon_color_of prediction; folium.icon_name := "info-sign" |}.

Definition state_circle (entry : string * list Py.float) : folium.layer :=
  folium.Circle (snd entry) 50000 "red" true (Py.float_lit 3 1)
    (folium.PopupText ("High Risk Area: " ++ fst entry)).

(** A call into folium: logged, then it raises if the environment says
    so. *)
Definition folium_call (w : env) (c : folium.call) : M unit :=
  emit (folium_called c) ;;
  match fault w c with
  | Some e => raise e
  | None => ret tt
  end.

(** Lines 20 to 26, the body of [load_model]: [None] when the file does
    not exist, else whatever [joblib.load] returns. *)
Definition load_model (w : env) : M (option Model) :=
  match model_pkl w with
  | None => ret None
  | Some loaded => model <- lift loaded ;; ret model
  end.

(** [@st.cache_resource]: the body runs until it has returned once; the
    value it returned is handed out from then on. *)
Definition load_model_cached (w : env) : M (option Model) :=
  c <- get_cache ;;
  match c with
  | Some model => ret model
  | None => model <- load_model w ;; put_cache model ;; ret model
  end.

(** [model.predict(rows)]: the call is logged with the rows it is made
    on, and returns or raises as the model does on these rows. *)
Definition call_predict (model : Model) (rows : list (list Py.num)) : M (list string) :=
  emit (predict_called rows) ;;
  lift (predict model rows).

(** Lines 67 to 116, the body of the [try]. *)
Definition predict_and_render (w : env) (model : Model) (r : RegionInput) : M unit :=
  labels <- call_predict model (input_features r) ;;
  prediction <- lift (Py.getitem0 labels) ;;
  emit (success ("✅ **Predicted Risk Level: `" ++ prediction ++ "`**")) ;;
  emit (header "🗺️ Visualize Location on Risk Map") ;;
  folium_call w folium.call_Map ;;
  let map_object :=
    {| folium.map_location := [latitude r; longitude r];
       folium.zoom_start := 6;
       folium.tiles := "CartoDB dark_matter";
       folium.children := [] |} in
  folium_call w folium.call_Marker ;;
  let map_object := folium.add_to (user_marker w prediction r) map_object in
  map_object <- for_each high_risk_states
    (fun m entry =>
       folium_call w (folium.call_Circle (fst entry)) ;;
       ret (folium.add_to (state_circle entry) m))
    map_object ;;
  emit (folium_called folium.call_save) ;;
  old <- get_map_html ;;
  match fault w folium.call_save with
  | Some e => put_map_html (failed_save_leaves w old) ;; raise e
  | None => put_map_html (Some (Document (html_of w map_object)))
  end ;;
  folium_call w folium.call_folium_static ;;
  emit (map_widget map_object).

(** Lines 66 to 119. *)
Definition primary (w : env) (model : Model) (r : RegionInput) : M unit :=
  try_except (predict_and_render w model r)
             (fun e => emit (error (prediction_failed e))).

(** Lines 124 to 130.  [os.path.exists] holds of whatever is found under
    the name; opening and reading it happen outside the [try], so an
    exception they raise leaves the script. *)
Definition secondary : M unit :=
  emit (subheader "📍 View Full Risk Map") ;;
  f <- get_map_html ;;
  match f with
  | Some found =>
      content <- read_file found ;;
      emit (components_html content 600 true)
  | None => emit (warning map_missing_message)
  end.

(** The whole script, for one run: the widget values [r] and whether the
    run was caused by the form's submit button. *)
Definition script (w : env) (r : RegionInput) (submitted : bool) : M unit :=
  emit (set_page_config "🌍 Disaster Risk Classifier" "wide") ;;
  emit (title "🌍 Disaster-Prone Area Classification App") ;;
  emit (markdown "Predict the **risk level** of a region based on disaster and demographic data.") ;;
  model <- load_model_cached w ;;
  match model with
  | None => emit (error model_missing_message) ;; stop
  | Some model =>
      emit (header "📥 Enter Region Data") ;;
      emit (form "input_form") ;;
      if submitted then
        primary w model r ;;
        secondary
      else ret tt
  end.

(** One interaction of the user with the page. *)
Record interaction : Type := {
  world : env;
  widgets : RegionInput;
  submit : bool
}.

(** What outlives a run: the map file and the resource cache. *)
Record process : Type := {
  p_map_html : option file;
  p_cache : option (option Model)
}.

Definition fresh_page (p : process) : state :=
  {| log := []; map_html := p_map_html p; cache := p_cache p |}.

Definition after (s : state) : process :=
  {| p_map_html := map_html s; p_cache := cache s |}.

Definition run (p : process) (i : interaction) : outcome unit * state :=
  script (world i) (widgets i) (submit i) (fresh_page p).

(** A session: the runs of one process, one per interaction, each on a
    fresh page and on what the run before left behind. *)
Fixpoint session (p : process) (todo : list interaction) : list (outcome unit * state) :=
  match todo with
  | [] => []
  | i :: todo' => let r := run p i in r :: session (after (snd r)) todo'
  end.

(** How a submission ended: failed when the page shows the
    prediction-failed error, succeeded otherwise. *)
Inductive verdict : Set := Succeeded | Failed.

Definition is_prediction_error (ev : event) : bool :=
  match ev with
  | error body => Py.startswith "❌ Prediction failed: " body
  | _ => false
  end.

Definition verdict_of (page : list event) : verdict :=
  if existsb is_prediction_error page then Failed else Succeeded.

Definition is_predict_call (ev : event) : bool :=
  match ev with predict_called _ => true | _ => false end.

Definition is_folium_call (ev : event) : bool :=
  match ev with folium_called _ | map_widget _ => true | _ => false end.

Definition is_map_widget (ev : event) : bool :=
  match ev with map_widget _ => true | _ => false end.

(** The arguments of the calls to [model.predict] on a page, in order. *)
Definition predict_calls (page : list event) : list (list (list Py.num)) :=
  flat_map (fun ev => match ev with predict_called rows => [rows] | _ => [] end) page.

(** The derived features a row carries, in its sixth and seventh place. *)
Definition derived_of_row (row : list Py.num) : option (Py.num * Py.num) :=
  match row with
  | [_; _; _; _; _; ri; ds] => Some (ri, ds)
  | _ => None
  end.

Definition derived_passed (page : list event) : list (list (option (Py.num * Py.num))) :=
  map (map derived_of_row) (predict_calls page).

(** What every run writes first (lines 12 to 15). *)
Definition preamble : list event :=
  [ set_page_config "🌍 Disaster Risk Classifier" "wide";
    title "🌍 Disaster-Prone Area Classification App";
    markdown "Predict the **risk level** of a region based on disaster and demographic data." ].

(** The page of a run that got past the model check, up to the form. *)
Definition page_with_form : list event :=
  preamble ++ [header "📥 Enter Region Data"; form "input_form"].

(** The page of a run that found no model. *)
Definition page_without_model : list event :=
  preamble ++ [error model_missing_message].

(** [load_model] hands [model] to this run: from the cache, or from the
    file when nothing is cached yet. *)
Definition loaded (p : process) (w : env) (model : Model) : Prop :=
  p_cache p = Some (Some model) \/
  (p_cache p = None /\ model_pkl w = Some (Py.Returns (Some model))).

(** The folium calls of a render, in the order the script makes them,
    and the first of them that raises in a given environment. *)
Definition render_calls : list folium.call :=
  [folium.call_Map; folium.call_Marker]
    ++ map (fun entry => folium.call_Circle (fst entry)) high_risk_states
    ++ [folium.call_save; folium.call_folium_static].

Fixpoint first_fault (w : env) (cs : list folium.call) : option (folium.call * Py.exn) :=
  match cs with
  | [] => None
  | c :: cs' =>
      match fault w c with
      | Some e => Some (c, e)
      | None => first_fault w cs'
      end
  end.

(** The map a render that runs to its end has built. *)
Definition rendered_map (w : env) (prediction : string) (r : RegionInput) : folium.Map :=
  {| folium.map_location := [latitude r; longitude r];
     folium.zoom_start := 6;
     folium.tiles := "CartoDB dark_matter";
     folium.children := user_marker w prediction r :: map state_circle high_risk_states |}.

(** What the secondary display writes for a given state of the map
    file, and how it ends. *)
Definition full_map_section (f : option file) : list event :=
  subheader "📍 View Full Risk Map"
    :: match f with
       | Some (Document content) => [components_html content 600 true]
       | Some (Unreadable _) => []
       | None => [warning map_missing_message]
       end.

Definition full_map_end (f : option file) : outcome unit :=
  match f with
  | Some (Unreadable e) => Raised e
  | _ => Done tt
  end.

(** The example of the form's default values. *)
Definition example_input : RegionInput :=
  {| disaster_score := 5; pop_density := 5000; latitude := Py.float_lit 225 1;
     urban_level := Py.float_lit 5 1; houses_affected := 100; deaths := 10;
     longitude := Py.float_lit 789 1 |}.

(** The lowest and the highest values the widgets accept. *)
Definition lowest_input : RegionInput :=
  {| disaster_score := 0; pop_density := 0; latitude := Py.float_lit 50 1;
     urban_level := Py.float_lit 0 1; houses_affected := 0; deaths := 0;
     longitude := Py.float_lit 650 1 |}.

Definition highest_input : RegionInput :=
  {| disaster_score := 10; pop_density := 20000; latitude := Py.float_lit 400 1;
     urban_level := Py.float_lit 10 1; houses_affected := 10000; deaths := 1000;
     longitude := Py.float_lit 1000 1 |}.

(** The folium calls on a page, in order. *)
Definition folium_calls (page : list event) : list folium.call :=
  flat_map (fun ev => match ev with folium_called c => [c] | _ => [] end) page.

Definition is_error (ev : event) : bool :=
  match ev with error _ => true | _ => false end.

Definition is_success (ev : event) : bool :=
  match ev with success _ => true | _ => false end.

(** The same environment with another state of [disaster_model.pkl]. *)
Definition with_model_pkl (pkl : option (Py.result (option Model))) (w : env) : env :=
  {| model_pkl := pkl;
     fault := fault w;
     html_of := html_of w;
     failed_save_leaves := failed_save_leaves w;
     repr_float := repr_float w |}.

(** Lines 101 to 109 for any dict of states: the loop that the render runs
    on [high_risk_states]. *)
Definition draw_circles (w : env) (states : list (string * list Py.float))
           (map_object : folium.Map) : M folium.Map :=
  for_each states
    (fun m entry =>
       folium_call w (folium.call_Circle (fst entry)) ;;
       ret (folium.add_to (state_circle entry) m))
    map_object.

(** The page with more elements written to it. *)
Definition written (s : state) (evs : list event) : state :=
  {| log := log s ++ evs; map_html := map_html s; cache := cache s |}.

End App.

(* ===================================================================== *)
(** ** Concrete worlds, to run the script on *)
(* ===================================================================== *)

Module Demo.
Import st App.

(** A classifier that answers [label] whatever the row. *)
Definition answers (label : string) : Model :=
  {| predict := fun _ => Py.Returns [label] |}.

(** A classifier whose [predict] raises. *)
Definition broken (msg : string) : Model :=
  {| predict := fun _ => Py.Raises (Py.Exception msg) |}.

(** A classifier that answers [label] for a disaster score of 5 and
    raises for any other row. *)
Definition only_score_5 (label msg : string) : Model :=
  {| predict := fun rows =>
                  match rows with
                  | (Py.Int 5 :: _) :: _ => Py.Returns [label]
                  | _ => Py.Raises (Py.Exception msg)
                  end |}.

Definition no_fault : folium.call -> option Py.exn := fun _ => None.

Definition save_fails (msg : string) : folium.call -> option Py.exn :=
  fun c => match c with
           | folium.call_save => Some (Py.Exception msg)
           | _ => None
           end.

(** A world whose model file is absent ([None]), makes [joblib.load]
    raise, or holds a classifier, and whose folium calls raise as [f]
    says. *)
Definition world_of (pkl : option (Py.result Model))
           (f : folium.call -> option Py.exn) : env :=
  {| model_pkl :=
       match pkl with
       | Some (Py.Returns model) => Some (Py.Returns (Some model))
       | Some (Py.Raises e) => Some (Py.Raises e)
       | None => None
       end;
     fault := f;
     html_of := fun _ => "<html>map</html>";
     failed_save_leaves := fun old => old;
     repr_float := fun _ => "nan" |}.

Definition just_started : process := {| p_map_html := None; p_cache := None |}.

Definition submission (w : env) : interaction :=
  {| world := w; widgets := example_input; submit := true |}.

End Demo.

(* ===================================================================== *)
(** ** Properties *)
(* ===================================================================== *)

Import st App.
Local Open Scope script_scope.

(** *** Running the script symbolically *)

(** Unfolds the script and the monad, and nothing of the values they
    carry. *)
Ltac exec :=
  cbv [run script fresh_page primary secondary predict_and_render folium_call
       load_model_cached load_model try_except bind emit ret raise stop lift
       for_each high_risk_states get_map_html put_map_html get_cache put_cache
       call_predict read_file full_map_section full_map_end
       page_with_form page_without_model preamble
       fst snd log map_html cache p_cache p_map_html Datatypes.app].

(** One case per folium call that may raise. *)
Ltac split_faults :=
  repeat match goal with
         | |- context [match fault ?w ?c with _ => _ end] =>
             destruct (fault w c) eqn:?; exec
         end.

(** The cases of a submission: what [predict] does, whether it returned a
    label, and which folium call raises first. *)
Ltac submission_cases model r :=
  exec;
  destruct (predict model (input_features r)) as [[| ?prediction ?labels] | ?e];
  cbv [Py.getitem0]; cbv beta iota;
  split_faults.

(** The file the secondary display finds, case by case. *)
Ltac settle_file w old :=
  try (destruct old as [[? | ?] |]);
  try (destruct (failed_save_leaves w _) as [[? | ?] |]);
  cbv beta iota.

(** A run that gets its model executes the form and, on a submission, the
    two stages, on the page written so far. *)
Lemma run_loaded (p : process) (i : interaction) (model : Model) :
  loaded p (world i) model ->
  run p i =
  (if submit i then primary (world i) model (widgets i) ;; secondary else ret tt)
    {| log := page_with_form; map_html := p_map_html p; cache := Some (Some model) |}.
Proof.
  intros [H | [H1 H2]]; destruct p as [f c]; cbn [p_cache] in *; subst c.
  - cbv [run script fresh_page load_model_cached bind emit ret get_cache
         p_cache p_map_html log map_html cache Datatypes.app preamble page_with_form].
    reflexivity.
  - cbv [run script fresh_page load_model_cached load_model bind emit ret
         get_cache put_cache lift p_cache p_map_html log map_html cache
         Datatypes.app preamble page_with_form].
    rewrite H2. reflexivity.
Qed.

(** A run that finds [None] in the cache, or nothing cached and either no
    file or a file that unpickles to [None], writes the error and stops,
    with [None] cached. *)
Lemma run_without_model (p : process) (i : interaction) :
  p_cache p = Some None
  \/ (p_cache p = None
      /\ (model_pkl (world i) = None \/ model_pkl (world i) = Some (Py.Returns None))) ->
  run p i =
  (Stopped, {| log := page_without_model;
               map_html := p_map_html p; cache := Some None |}).
Proof.
  intros [H | [H1 [H2 | H2]]]; destruct p as [f c]; cbn [p_cache] in *; subst c.
  - exec. reflexivity.
  - exec. rewrite H2. reflexivity.
  - exec. rewrite H2. reflexivity.
Qed.

(** A run without a model, or without a submission, does not call
    [predict]. *)
Lemma predict_calls_otherwise (p : process) (i : interaction) :
  (forall model, ~ loaded p (world i) model) \/ submit i = false ->
  predict_calls (log (snd (run p i))) = [].
Proof.
  destruct i as [w r sb], p as [old c]. cbn [world submit].
  destruct c as [[model |] |].
  - intros [Hno | ->].
    + exfalso. apply (Hno model). left. reflexivity.
    + rewrite (run_loaded _ _ model) by (left; reflexivity). reflexivity.
  - intros _. rewrite run_without_model by (left; reflexivity). reflexivity.
  - destruct (model_pkl w) as [[[model |] | e] |] eqn:Hpkl.
    + intros [Hno | ->].
      * exfalso. apply (Hno model). right. split; [reflexivity | exact Hpkl].
      * rewrite (run_loaded _ _ model) by (right; split; [reflexivity | exact Hpkl]).
        reflexivity.
    + intros _.
      rewrite run_without_model by (right; split; [reflexivity | right; exact Hpkl]).
      reflexivity.
    + intros _. exec. cbn [world]. rewrite Hpkl. reflexivity.
    + intros _.
      rewrite run_without_model by (right; split; [reflexivity | left; exact Hpkl]).
      reflexivity.
Qed.

Lemma loaded_or_not (p : process) (w : env) :
  (exists model, loaded p w model) \/ (forall model, ~ loaded p w model).
Proof.
  destruct p as [old [[model |] |]].
  - left. exists model. left. reflexivity.
  - right. intros model [H | [H _]]; discriminate H.
  - destruct (model_pkl w) as [[[model |] | e] |] eqn:Hpkl.
    + left. exists model. right. split; [reflexivity | exact Hpkl].
    + right. intros model [H | [_ H]]; [discriminate H | congruence].
    + right. intros model [H | [_ H]]; [discriminate H | congruence].
    + right. intros model [H | [_ H]]; [discriminate H | congruence].
Qed.

(** *** Decimal printing *)

Lemma all_digits_unsigned (u : Decimal.uint) :
  Py.all_digits (NilEmpty.string_of_uint u) = true.
Proof. induction u; cbn; auto. Qed.

Lemma all_digits_str_int (n : Z) : 0 <= n -> Py.all_digits (Py.str_int n) = true.
Proof.
  intros Hn. unfold Py.str_int.
  destruct n as [| q | q]; [reflexivity | | lia].
  cbn [Z.to_int NilZero.string_of_int]. unfold NilZero.string_of_uint.
  destruct (Pos.to_uint q); try reflexivity; apply all_digits_unsigned.
Qed.

Lemma to_int_not_nil (n : Z) : Z.to_int n <> Decimal.Pos Decimal.Nil /\ Z.to_int n <> Decimal.Neg Decimal.Nil.
Proof.
  destruct n as [| q | q]; cbn; split; try discriminate;
    intros H; injection H as H; exact (DecimalPos.Unsigned.to_uint_nonnil q H).
Qed.

(** Reading the printed integer back gives the integer. *)
Lemma read_str_int (n : Z) :
  option_map Z.of_int (NilZero.int_of_string (Py.str_int n)) = Some n.
Proof.
  unfold Py.str_int. destruct (to_int_not_nil n) as [Hp Hn].
  rewrite (NilZero.isi _ Hp Hn). cbn [option_map]. f_equal. apply DecimalZ.of_to.
Qed.

Lemma example_in_ranges : in_form_ranges example_input.
Proof.
  unfold in_form_ranges, between;
    cbn [disaster_score pop_density houses_affected deaths example_input].
  repeat split; try lia; vm_compute; reflexivity.
Qed.

(** A submission calls [predict] once, on [input_features]. *)
Lemma predict_calls_of_submission (p : process) (i : interaction) (model : Model) :
  loaded p (world i) model -> submit i = true ->
  predict_calls (log (snd (run p i))) = [input_features (widgets i)].
Proof.
  intros Hl Hs. rewrite (run_loaded p i model Hl), Hs.
  destruct i as [w r sb], p as [old c]; cbn [world widgets submit] in *.
  submission_cases model r; settle_file w old; reflexivity.
Qed.

(** What [predict] does on [input_features] shows on the page of a
    submission: its exception in the error message, its first label in
    the success message. *)
Lemma predict_result_on_page (p : process) (i : interaction) (model : Model) :
  loaded p (world i) model -> submit i = true ->
  (forall e,
      predict model (input_features (widgets i)) = Py.Raises e ->
      In (error ("❌ Prediction failed: " ++ Py.str_exn e)) (log (snd (run p i))))
  /\ (forall label others,
        predict model (input_features (widgets i)) = Py.Returns (label :: others) ->
        In (success ("✅ **Predicted Risk Level: `" ++ label ++ "`**"))
           (log (snd (run p i)))).
Proof.
  intros Hl Hs. rewrite (run_loaded p i model Hl), Hs.
  destruct i as [w r sb], p as [old c]; cbn [world widgets submit] in *.
  split.
  - intros e0 He. exec. rewrite He. settle_file w old; cbv [In]; tauto.
  - intros label others Hp. exec. rewrite Hp. cbv [Py.getitem0]. cbv beta iota.
    split_faults; settle_file w old; cbv [In]; tauto.
Qed.

(** *** The derived features *)

(** C1. For every form input within the widgets' ranges, [risk_index] is
    the float [disaster_score*0.5 + pop_density*0.3 + urban_level*0.2],
    each product and sum being Python's (binary64) one on the converted
    integers, taken left to right, and [damage_scale] is the integer
    [houses_affected + deaths*10]; nothing else is applied to either.  On
    the form's default values (5, 5000, 0.5, 100, 10) the two are the
    float [1502.6] and the integer [200]; on the lowest values they are
    [0.0] and [0], on the highest [6005.2] and [20000]. *)
Theorem derive_linear_formulas :
  (forall r : RegionInput,
      in_form_ranges r ->
      risk_index r =
        Py.Float
          (Py.fadd
             (Py.fadd (Py.fmul (Py.float_of_int (disaster_score r)) (Py.float_lit 5 1))
                      (Py.fmul (Py.float_of_int (pop_density r)) (Py.float_lit 3 1)))
             (Py.fmul (urban_level r) (Py.float_lit 2 1)))
      /\ damage_scale r = Py.Int (houses_affected r + deaths r * 10))
  /\ (in_form_ranges example_input
      /\ risk_index example_input = Py.Float (Py.float_lit 15026 1)
      /\ damage_scale example_input = Py.Int 200)
  /\ (in_form_ranges lowest_input
      /\ risk_index lowest_input = Py.Float (Py.float_lit 0 1)
      /\ damage_scale lowest_input = Py.Int 0)
  /\ (in_form_ranges highest_input
      /\ risk_index highest_input = Py.Float (Py.float_lit 60052 1)
      /\ damage_scale highest_input = Py.Int 20000).
Proof.
  split; [intros r _; split; reflexivity |].
  split; [split; [exact example_in_ranges | split; vm_compute; reflexivity] |].
  split; (split; [| split; vm_compute; reflexivity]).
  - unfold in_form_ranges, between;
      cbn [disaster_score pop_density houses_affected deaths lowest_input].
    repeat split; try lia; vm_compute; reflexivity.
  - unfold in_form_ranges, between;
      cbn [disaster_score pop_density houses_affected deaths highest_input].
    repeat split; try lia; vm_compute; reflexivity.
Qed.

Lemma derive_linear_formulas_witness :
  risk_index example_input =
    Py.Float
      (Py.fadd
         (Py.fadd (Py.fmul (Py.float_of_int 5) (Py.float_lit 5 1))
                  (Py.fmul (Py.float_of_int 5000) (Py.float_lit 3 1)))
         (Py.fmul (Py.float_lit 5 1) (Py.float_lit 2 1)))
  /\ damage_scale example_input = Py.Int (100 + 10 * 10).
Proof. exact (proj1 derive_linear_formulas example_input example_in_ranges). Defined.

(** C7. The derived features are a function of the five form values they
    are computed from, and of nothing else: two submissions that agree on
    these values, made in any two processes, against any two models, file
    systems and folium behaviours, and with any coordinates, pass the same
    [risk_index] and [damage_scale] (the same bits) to [predict]. *)
Theorem derive_deterministic
        (p1 p2 : process) (i1 i2 : interaction) (model1 model2 : Model) :
  in_form_ranges (widgets i1) ->
  in_form_ranges (widgets i2) ->
  disaster_score (widgets i1) = disaster_score (widgets i2) ->
  pop_density (widgets i1) = pop_density (widgets i2) ->
  urban_level (widgets i1) = urban_level (widgets i2) ->
  houses_affected (widgets i1) = houses_affected (widgets i2) ->
  deaths (widgets i1) = deaths (widgets i2) ->
  loaded p1 (world i1) model1 -> submit i1 = true ->
  loaded p2 (world i2) model2 -> submit i2 = true ->
  risk_index (widgets i1) = risk_index (widgets i2)
  /\ damage_scale (widgets i1) = damage_scale (widgets i2)
  /\ derived_passed (log (snd (run p1 i1)))
     = [[Some (risk_index (widgets i1), damage_scale (widgets i1))]]
  /\ derived_passed (log (snd (run p2 i2))) = derived_passed (log (snd (run p1 i1))).
Proof.
  intros _ _ Hds Hpd Hul Hh Hd Hl1 Hs1 Hl2 Hs2.
  assert (Hri : risk_index (widgets i1) = risk_index (widgets i2))
    by (unfold risk_index; rewrite Hds, Hpd, Hul; reflexivity).
  assert (Hdm : damage_scale (widgets i1) = damage_scale (widgets i2))
    by (unfold damage_scale; rewrite Hh, Hd; reflexivity).
  assert (Hpass : forall p i model,
             loaded p (world i) model -> submit i = true ->
             derived_passed (log (snd (run p i)))
             = [[Some (risk_index (widgets i), damage_scale (widgets i))]]).
  { intros p i model Hl Hs. unfold derived_passed.
    rewrite (predict_calls_of_submission p i model Hl Hs). reflexivity. }
  repeat split; trivial.
  - exact (Hpass p1 i1 model1 Hl1 Hs1).
  - rewrite (Hpass p1 i1 model1 Hl1 Hs1), (Hpass p2 i2 model2 Hl2 Hs2), Hri, Hdm.
    reflexivity.
Qed.

Lemma derive_deterministic_witness :
  risk_index example_input = risk_index example_input
  /\ damage_scale example_input = damage_scale example_input
  /\ derived_passed
       (log (snd (run Demo.just_started
                      (Demo.submission
                         (Demo.world_of (Some (Py.Returns (Demo.answers "High")))
                                        Demo.no_fault)))))
     = [[Some (risk_index example_input, damage_scale example_input)]]
  /\ derived_passed
       (log (snd (run {| p_map_html := Some (Document "<html>old</html>");
                         p_cache := Some (Some (Demo.broken "boom")) |}
                      (Demo.submission (Demo.world_of None (Demo.save_fails "disk full"))))))
     = derived_passed
         (log (snd (run Demo.just_started
                        (Demo.submission
                           (Demo.world_of (Some (Py.Returns (Demo.answers "High")))
                                          Demo.no_fault))))).
Proof.
  apply (derive_deterministic
           Demo.just_started
           {| p_map_html := Some (Document "<html>old</html>");
              p_cache := Some (Some (Demo.broken "boom")) |}
           (Demo.submission
              (Demo.world_of (Some (Py.Returns (Demo.answers "High"))) Demo.no_fault))
           (Demo.submission (Demo.world_of None (Demo.save_fails "disk full")))
           (Demo.answers "High") (Demo.broken "boom")).
  - exact example_in_ranges.
  - exact example_in_ranges.
  - reflexivity.
  - reflexivity.
  - reflexivity.
  - reflexivity.
  - reflexivity.
  - right. split; reflexivity.
  - reflexivity.
  - left. reflexivity.
  - reflexivity.
Defined.

(** C2. Whatever a run passes to [predict] is one row of seven values in
    the order disaster score, population density, urbanization level,
    houses affected, human deaths, risk index, damage scale; every
    submission (a run that has its model and was caused by the submit
    button) calls [predict] exactly once, on that row; and it is the
    model's answer on that one row that the page shows: the exception it
    raises there in the error message, the first label it returns there in
    the success message. *)
Theorem feature_vector_single_ordered_row (p : process) (i : interaction) :
  let row :=
    [ Py.Int (disaster_score (widgets i));
      Py.Int (pop_density (widgets i));
      Py.Float (urban_level (widgets i));
      Py.Int (houses_affected (widgets i));
      Py.Int (deaths (widgets i));
      risk_index (widgets i);
      damage_scale (widgets i) ] in
  (forall rows, In rows (predict_calls (log (snd (run p i)))) -> rows = [row])
  /\ (forall model,
        loaded p (world i) model -> submit i = true ->
        predict_calls (log (snd (run p i))) = [[row]])
  /\ (forall model,
        loaded p (world i) model -> submit i = true ->
        (forall e,
            predict model [row] = Py.Raises e ->
            In (error ("❌ Prediction failed: " ++ Py.str_exn e)) (log (snd (run p i))))
        /\ (forall label others,
              predict model [row] = Py.Returns (label :: others) ->
              In (success ("✅ **Predicted Risk Level: `" ++ label ++ "`**"))
                 (log (snd (run p i))))).
Proof.
  cbv zeta. split; [| split].
  - intros rows Hin.
    destruct (loaded_or_not p (world i)) as [[model Hl] | Hno];
      [destruct (submit i) eqn:Hs |].
    + rewrite (predict_calls_of_submission p i model Hl Hs) in Hin.
      destruct Hin as [<- | []]. reflexivity.
    + rewrite (predict_calls_otherwise p i (or_intror Hs)) in Hin. destruct Hin.
    + rewrite (predict_calls_otherwise p i (or_introl Hno)) in Hin. destruct Hin.
  - intros model Hl Hs. rewrite (predict_calls_of_submission p i model Hl Hs).
    reflexivity.
  - intros model Hl Hs. exact (predict_result_on_page p i model Hl Hs).
Qed.

Lemma feature_vector_single_ordered_row_witness :
  predict_calls
    (log (snd (run Demo.just_started
                   (Demo.submission
                      (Demo.world_of (Some (Py.Returns (Demo.answers "Low")))
                                     Demo.no_fault)))))
  = [ [ [ Py.Int 5; Py.Int 5000; Py.Float (Py.float_lit 5 1); Py.Int 100; Py.Int 10;
          risk_index example_input; damage_scale example_input ] ] ].
Proof.
  apply (proj1 (proj2 (feature_vector_single_ordered_row
                  Demo.just_started
                  (Demo.submission
                     (Demo.world_of (Some (Py.Returns (Demo.answers "Low"))) Demo.no_fault))))
               (Demo.answers "Low")).
  - right. split; reflexivity.
  - reflexivity.
Defined.

(** *** The model check *)

(** Once [None] is cached every later run stops at the model check. *)
Lemma session_without_model (todo : list interaction) (f : option file) :
  Forall (fun r => r = (Stopped, {| log := page_without_model;
                                    map_html := f; cache := Some None |}))
         (session {| p_map_html := f; p_cache := Some None |} todo).
Proof.
  induction todo as [| i todo IH]; cbn [session]; constructor.
  - apply run_without_model. left. reflexivity.
  - rewrite run_without_model by (left; reflexivity). exact IH.
Qed.

(** C3. When [disaster_model.pkl] does not exist at the first run of a
    process, that run and every later run of the session (whatever the
    file system holds by then, whatever is submitted) writes the
    model-not-found error after the page heading and stops there: the form
    is not shown and [predict] is not called. *)
Theorem model_absent_halts_session
        (f : option file) (i : interaction) (todo : list interaction) :
  model_pkl (world i) = None ->
  Forall (fun r =>
            fst r = Stopped
            /\ log (snd r) = page_without_model
            /\ predict_calls (log (snd r)) = []
            /\ existsb is_folium_call (log (snd r)) = false
            /\ ~ In (form "input_form") (log (snd r)))
         (session {| p_map_html := f; p_cache := None |} (i :: todo)).
Proof.
  intros Hm.
  assert (Hstop : forall r : outcome unit * state,
             r = (Stopped, {| log := page_without_model;
                              map_html := f; cache := Some None |}) ->
             fst r = Stopped
             /\ log (snd r) = page_without_model
             /\ predict_calls (log (snd r)) = []
             /\ existsb is_folium_call (log (snd r)) = false
             /\ ~ In (form "input_form") (log (snd r))).
  { intros r ->. cbn [fst snd log]. repeat split.
    cbv [page_without_model preamble Datatypes.app In]. intros H; repeat (destruct H as [H | H]; [discriminate |]); exact H. }
  cbn [session].
  rewrite run_without_model by (right; split; [reflexivity | left; exact Hm]).
  constructor; [apply Hstop; reflexivity |].
  cbn [snd after map_html cache p_map_html].
  eapply Forall_impl; [| apply session_without_model].
  exact Hstop.
Qed.

Lemma model_absent_halts_session_witness :
  Forall (fun r =>
            fst r = Stopped
            /\ log (snd r) = page_without_model
            /\ predict_calls (log (snd r)) = []
            /\ existsb is_folium_call (log (snd r)) = false
            /\ ~ In (form "input_form") (log (snd r)))
         (session {| p_map_html := None; p_cache := None |}
                  [ Demo.submission (Demo.world_of None Demo.no_fault);
                    Demo.submission
                      (Demo.world_of (Some (Py.Returns (Demo.answers "High")))
                                     Demo.no_fault) ]).
Proof.
  apply (model_absent_halts_session
           None
           (Demo.submission (Demo.world_of None Demo.no_fault))
           [ Demo.submission
               (Demo.world_of (Some (Py.Returns (Demo.answers "High"))) Demo.no_fault) ]).
  reflexivity.
Defined.

(** *** The prediction stage *)

(** The run of a submission whose [predict] raises. *)
Lemma run_predict_raises (p : process) (i : interaction) (model : Model) (e : Py.exn) :
  loaded p (world i) model ->
  submit i = true ->
  predict model (input_features (widgets i)) = Py.Raises e ->
  run p i
  = (full_map_end (p_map_html p),
     {| log := (page_with_form
                  ++ [ predict_called (input_features (widgets i));
                       error ("❌ Prediction failed: " ++ Py.str_exn e) ]
                  ++ full_map_section (p_map_html p))%list;
        map_html := p_map_html p;
        cache := Some (Some model) |}).
Proof.
  intros Hl Hs He. rewrite (run_loaded p i model Hl), Hs.
  destruct i as [w r sb], p as [old c]; cbn [world widgets submit] in *.
  exec. rewrite He. settle_file w old; reflexivity.
Qed.

(** C4. When [predict] raises in a submission, the exception is caught:
    the page shows the error "Prediction failed: " followed by the
    exception's own message, no folium call is made and no map is shown,
    the map file is left as it was, and the submission counts as failed.
    The run then goes on to the "View Full Risk Map" section and ends
    normally, unless what it finds under the map file's name cannot be
    read: the exception that ends the run is then that of the read, never
    that of [predict].  Either way the process keeps its model and goes
    on: the next submission calls [predict] again. *)
Theorem predict_exception_is_caught
        (p : process) (i : interaction) (model : Model) (e : Py.exn) :
  loaded p (world i) model ->
  submit i = true ->
  predict model (input_features (widgets i)) = Py.Raises e ->
  log (snd (run p i))
  = (page_with_form
       ++ [ predict_called (input_features (widgets i));
            error ("❌ Prediction failed: " ++ Py.str_exn e) ]
       ++ subheader "📍 View Full Risk Map"
       :: match p_map_html p with
          | Some (Document content) => [components_html content 600 true]
          | Some (Unreadable _) => []
          | None => [warning map_missing_message]
          end)%list
  /\ existsb is_folium_call (log (snd (run p i))) = false
  /\ map_html (snd (run p i)) = p_map_html p
  /\ verdict_of (log (snd (run p i))) = Failed
  /\ fst (run p i)
     = match p_map_html p with
       | Some (Unreadable unread) => Raised unread
       | _ => Done tt
       end
  /\ cache (snd (run p i)) = Some (Some model)
  /\ forall next : interaction,
       submit next = true ->
       predict_calls (log (snd (run (after (snd (run p i))) next)))
       = [input_features (widgets next)].
Proof.
  intros Hl Hs He.
  rewrite (run_predict_raises p i model e Hl Hs He). cbn [fst snd log map_html cache].
  split; [reflexivity |].
  split; [destruct (p_map_html p) as [[? | ?] |]; reflexivity |].
  split; [reflexivity |].
  split; [destruct (p_map_html p) as [[? | ?] |]; reflexivity |].
  split; [reflexivity |].
  split; [reflexivity |].
  intros next Hnext.
  apply (predict_calls_of_submission _ next model); [left; reflexivity | exact Hnext].
Qed.

Lemma predict_exception_is_caught_witness :
  fst (run Demo.just_started
           (Demo.submission
              (Demo.world_of (Some (Py.Returns (Demo.broken "X has 7 features, expected 9")))
                             Demo.no_fault)))
  = Done tt
  /\ log (snd (run Demo.just_started
                   (Demo.submission
                      (Demo.world_of
                         (Some (Py.Returns (Demo.broken "X has 7 features, expected 9")))
                         Demo.no_fault))))
     = (page_with_form
          ++ [ predict_called (input_features example_input);
               error "❌ Prediction failed: X has 7 features, expected 9";
               subheader "📍 View Full Risk Map";
               warning map_missing_message ])%list.
Proof.
  destruct (predict_exception_is_caught
              Demo.just_started
              (Demo.submission
                 (Demo.world_of
                    (Some (Py.Returns (Demo.broken "X has 7 features, expected 9")))
                    Demo.no_fault))
              (Demo.broken "X has 7 features, expected 9")
              (Py.Exception "X has 7 features, expected 9")
              (or_intror (conj eq_refl eq_refl)) eq_refl eq_refl)
    as (Hpage & _ & _ & _ & Hend & _).
  split; [exact Hend | exact Hpage].
Defined.

(** With something unreadable under the map file's name, the run of a
    failed prediction shows its error and the heading, and ends with the
    exception of the read. *)
Example failed_prediction_on_unreadable_map_file :
  run {| p_map_html := Some (Unreadable (Py.Exception "invalid start byte"));
         p_cache := None |}
      (Demo.submission
         (Demo.world_of (Some (Py.Returns (Demo.broken "bad input"))) Demo.no_fault))
  = (Raised (Py.Exception "invalid start byte"),
     {| log := (page_with_form
                  ++ [ predict_called (input_features example_input);
                       error "❌ Prediction failed: bad input";
                       subheader "📍 View Full Risk Map" ])%list;
        map_html := Some (Unreadable (Py.Exception "invalid start byte"));
        cache := Some (Some (Demo.broken "bad input")) |}).
Proof.
  rewrite (run_predict_raises _ _ (Demo.broken "bad input") (Py.Exception "bad input"));
    [reflexivity | right; split; reflexivity | reflexivity | reflexivity].
Qed.

(** *** The map *)

Lemma no_map_widget (m : folium.Map) (page : list event) :
  existsb is_map_widget page = false -> ~ In (map_widget m) page.
Proof.
  intros Hp Hin.
  assert (Ht : existsb is_map_widget page = true)
    by (apply existsb_exists; exists (map_widget m); split; [exact Hin | reflexivity]).
  congruence.
Qed.

(** The only map a run shows is the one a complete render builds. *)
Lemma shown_map_is_rendered (p : process) (i : interaction) (model : Model)
      (m : folium.Map) :
  loaded p (world i) model ->
  In (map_widget m) (log (snd (run p i))) ->
  exists prediction : string, m = rendered_map (world i) prediction (widgets i).
Proof.
  intros Hl. rewrite (run_loaded p i model Hl).
  destruct i as [w r sb], p as [old c]. cbn [world widgets submit p_map_html].
  destruct sb; [| intros H; exfalso; revert H; apply no_map_widget; reflexivity].
  submission_cases model r; settle_file w old; cbv [In];
    intros H; repeat (destruct H as [H | H]; [try discriminate H |]);
    try (exfalso; exact H);
    injection H as H; subst m; exists prediction; reflexivity.
Qed.

(** A run that has no model shows no map. *)
Lemma no_model_no_map (p : process) (i : interaction) (m : folium.Map) :
  (forall model, ~ loaded p (world i) model) ->
  ~ In (map_widget m) (log (snd (run p i))).
Proof.
  intros Hno. destruct i as [w r sb], p as [old c].
  destruct c as [[model |] |].
  - exfalso. apply (Hno model). left. reflexivity.
  - rewrite run_without_model by (left; reflexivity).
    apply no_map_widget. reflexivity.
  - destruct (model_pkl w) as [[[model |] | e] |] eqn:Hpkl.
    + exfalso. apply (Hno model). right. split; [reflexivity | exact Hpkl].
    + rewrite run_without_model by (right; split; [reflexivity | right; exact Hpkl]).
      apply no_map_widget. reflexivity.
    + exec. cbn [world]. rewrite Hpkl. apply no_map_widget. reflexivity.
    + rewrite run_without_model by (right; split; [reflexivity | left; exact Hpkl]).
      apply no_map_widget. reflexivity.
Qed.

(** C6. Whenever a run shows a map, whatever the form values, the label
    and the environment, the circles on that map are the same five, in
    this order: Bihar (25.9, 85.1), Assam (26.2, 91.7), Odisha
    (20.9, 85.1), Uttarakhand (30.1, 79.3) and Tamil Nadu (11.1, 78.7),
    each of radius 50000, red, filled with opacity 0.3; they are the
    entries of [high_risk_states]. *)
Theorem overlay_regions_fixed (p : process) (i : interaction) (m : folium.Map) :
  In (map_widget m) (log (snd (run p i))) ->
  folium.circles m
  = [ folium.Circle [Py.float_lit 259 1; Py.float_lit 851 1] 50000 "red" true
        (Py.float_lit 3 1) (folium.PopupText "High Risk Area: Bihar");
      folium.Circle [Py.float_lit 262 1; Py.float_lit 917 1] 50000 "red" true
        (Py.float_lit 3 1) (folium.PopupText "High Risk Area: Assam");
      folium.Circle [Py.float_lit 209 1; Py.float_lit 851 1] 50000 "red" true
        (Py.float_lit 3 1) (folium.PopupText "High Risk Area: Odisha");
      folium.Circle [Py.float_lit 301 1; Py.float_lit 793 1] 50000 "red" true
        (Py.float_lit 3 1) (folium.PopupText "High Risk Area: Uttarakhand");
      folium.Circle [Py.float_lit 111 1; Py.float_lit 787 1] 50000 "red" true
        (Py.float_lit 3 1) (folium.PopupText "High Risk Area: Tamil Nadu") ]
  /\ folium.circles m = map state_circle high_risk_states
  /\ List.length (folium.markers m) = 1%nat.
Proof.
  intros Hin.
  destruct (loaded_or_not p (world i)) as [[model Hl] | Hno].
  - destruct (shown_map_is_rendered p i model m Hl Hin) as [prediction ->].
    repeat split; reflexivity.
  - exfalso. exact (no_model_no_map p i m Hno Hin).
Qed.

Lemma demo_run_shows_map :
  In (map_widget
        (rendered_map (Demo.world_of (Some (Py.Returns (Demo.answers "High"))) Demo.no_fault)
                      "High" example_input))
     (log (snd (run Demo.just_started
                    (Demo.submission
                       (Demo.world_of (Some (Py.Returns (Demo.answers "High")))
                                      Demo.no_fault))))).
Proof.
  cbv - [Py.float_lit Py.float_of_int Py.fadd Py.fmul Py.fdiv].
  repeat (first [left; reflexivity | right]).
Qed.

Lemma overlay_regions_fixed_witness :
  folium.circles
    (rendered_map (Demo.world_of (Some (Py.Returns (Demo.answers "High"))) Demo.no_fault)
                  "High" example_input)
  = map state_circle high_risk_states.
Proof.
  exact (proj1 (proj2 (overlay_regions_fixed
                         Demo.just_started
                         (Demo.submission
                            (Demo.world_of (Some (Py.Returns (Demo.answers "High")))
                                           Demo.no_fault))
                         _ demo_run_shows_map))).
Defined.

(** *** The marker *)

(** C5. The icon colour of the marker is defined for every label string,
    and it is red exactly for "High", orange exactly for "Medium", and
    green exactly for every other string ("Low" and unknown labels
    alike). *)
Theorem icon_color_three_way (w : env) (r : RegionInput) (label : string) :
  let colour :=
    match user_marker w label r with
    | folium.Marker _ _ icon => folium.icon_color icon
    | folium.Circle _ _ _ _ _ _ => ""
    end in
  colour = icon_color_of label
  /\ (colour = "red" <-> label = "High")
  /\ (colour = "orange" <-> label = "Medium")
  /\ (colour = "green" <-> (label <> "High" /\ label <> "Medium")).
Proof.
  cbv zeta. cbn [user_marker folium.icon_color]. unfold icon_color_of.
  destruct (String.eqb_spec label "High") as [-> | HH];
    [| destruct (String.eqb_spec label "Medium") as [-> | HM]].
  - repeat split; try discriminate; try tauto.
  - repeat split; try discriminate; try tauto.
  - repeat split; try discriminate; try tauto.
Qed.

(** C10. For houses affected in [0, 10000] and human deaths in [0, 1000]
    the damage scale is a Python integer, at least 0 and at most 20000;
    its printing is made of decimal digits only and reads back as the
    damage scale; and on every map a run shows, the popup of the marker
    ends with that printing. *)
Theorem damage_scale_bounded_integer (p : process) (i : interaction) :
  0 <= houses_affected (widgets i) <= 10000 ->
  0 <= deaths (widgets i) <= 1000 ->
  let n := houses_affected (widgets i) + deaths (widgets i) * 10 in
  damage_scale (widgets i) = Py.Int n
  /\ 0 <= n <= 20000
  /\ Py.all_digits (Py.str_int n) = true
  /\ option_map Z.of_int (NilZero.int_of_string (Py.str_int n)) = Some n
  /\ forall m : folium.Map,
       In (map_widget m) (log (snd (run p i))) ->
       exists prediction : string,
         folium.markers m
         = [ folium.Marker
               [latitude (widgets i); longitude (widgets i)]
               (folium.Popup
                  ("<b>Risk Level:</b> " ++ prediction ++ "<br><b>Damage Scale:</b> "
                     ++ Py.str_int n)
                  250)
               {| folium.icon_color := icon_color_of prediction;
                  folium.icon_name := "info-sign" |} ].
Proof.
  intros Hh Hd n. subst n.
  split; [reflexivity |].
  split; [lia |].
  split; [apply all_digits_str_int; lia |].
  split; [apply read_str_int |].
  intros m Hin.
  destruct (loaded_or_not p (world i)) as [[model Hl] | Hno].
  - destruct (shown_map_is_rendered p i model m Hl Hin) as [prediction ->].
    exists prediction. reflexivity.
  - exfalso. exact (no_model_no_map p i m Hno Hin).
Qed.

Lemma damage_scale_bounded_integer_witness :
  exists prediction : string,
    folium.markers
      (rendered_map (Demo.world_of (Some (Py.Returns (Demo.answers "High"))) Demo.no_fault)
                    "High" example_input)
    = [ folium.Marker
          [Py.float_lit 225 1; Py.float_lit 789 1]
          (folium.Popup
             ("<b>Risk Level:</b> " ++ prediction ++ "<br><b>Damage Scale:</b> " ++ "200")
             250)
          {| folium.icon_color := icon_color_of prediction;
             folium.icon_name := "info-sign" |} ].
Proof.
  refine (proj2 (proj2 (proj2 (proj2
            (damage_scale_bounded_integer
               Demo.just_started
               (Demo.submission
                  (Demo.world_of (Some (Py.Returns (Demo.answers "High"))) Demo.no_fault))
               _ _)))) _ demo_run_shows_map); cbn; lia.
Defined.

(** *** The two stages of a submission *)

(** C8. In every submission the prediction stage ends normally, whatever
    [predict] and folium do, and the run then writes the "View Full Risk
    Map" heading and looks for the map file as the prediction stage left
    it.  When the file does not exist the run shows a warning and ends
    normally; when it holds a document the run embeds it and ends
    normally; when what is found cannot be read, the attempt ends the run
    with the exception of the read.  In all three cases the map file is
    left alone and the verdict of the submission (succeeded or failed) is
    the one the prediction stage reached. *)
Theorem secondary_display_always_attempted
        (p : process) (i : interaction) (model : Model) :
  loaded p (world i) model ->
  submit i = true ->
  let before :=
    {| log := page_with_form; map_html := p_map_html p; cache := Some (Some model) |} in
  let stage := primary (world i) model (widgets i) before in
  fst stage = Done tt
  /\ log (snd (run p i))
     = (log (snd stage)
          ++ subheader "📍 View Full Risk Map"
          :: match map_html (snd stage) with
             | Some (Document content) => [components_html content 600 true]
             | Some (Unreadable _) => []
             | None => [warning "⚠️ Full map file 'disaster_risk_map.html' not found."]
             end)%list
  /\ fst (run p i)
     = match map_html (snd stage) with
       | Some (Unreadable unread) => Raised unread
       | _ => Done tt
       end
  /\ map_html (snd (run p i)) = map_html (snd stage)
  /\ cache (snd (run p i)) = Some (Some model)
  /\ verdict_of (log (snd (run p i))) = verdict_of (log (snd stage)).
Proof.
  intros Hl Hs. rewrite (run_loaded p i model Hl), Hs.
  destruct i as [w r sb], p as [old c]. cbn [world widgets submit p_map_html].
  cbv zeta.
  submission_cases model r; settle_file w old; repeat split; reflexivity.
Qed.

Lemma secondary_display_always_attempted_witness :
  log (snd (run Demo.just_started
                (Demo.submission
                   (Demo.world_of (Some (Py.Returns (Demo.broken "bad input")))
                                  Demo.no_fault))))
  = (page_with_form
       ++ [ predict_called (input_features example_input);
            error "❌ Prediction failed: bad input";
            subheader "📍 View Full Risk Map";
            warning "⚠️ Full map file 'disaster_risk_map.html' not found." ])%list
  /\ fst (run Demo.just_started
              (Demo.submission
                 (Demo.world_of (Some (Py.Returns (Demo.broken "bad input")))
                                Demo.no_fault)))
     = Done tt.
Proof.
  destruct (secondary_display_always_attempted
              Demo.just_started
              (Demo.submission
                 (Demo.world_of (Some (Py.Returns (Demo.broken "bad input")))
                                Demo.no_fault))
              (Demo.broken "bad input")
              (or_intror (conj eq_refl eq_refl)) eq_refl)
    as (_ & Hpage & Hend & _).
  split; [exact Hpage | exact Hend].
Defined.

(** C9. When [predict] has returned a label and a folium call of the
    render (building the map, the marker, a circle, saving, or showing the
    map) is the first to raise, the exception lands in the handler of the
    prediction stage: the page shows the predicted label and then the
    error "Prediction failed: " with the exception's message, no map is
    shown, and the submission counts as failed.  The map file is then
    untouched when the call that raised came before the save, is whatever
    the failed save left when the save raised, and already holds the new
    map when only the display raised.  The run goes on to the "View Full
    Risk Map" section with that file, and ends normally unless what it
    finds there cannot be read. *)
Theorem render_exception_reported_as_prediction_failure
        (p : process) (i : interaction) (model : Model)
        (prediction : string) (others : list string)
        (c : folium.call) (e : Py.exn) :
  loaded p (world i) model ->
  submit i = true ->
  predict model (input_features (widgets i)) = Py.Returns (prediction :: others) ->
  first_fault (world i) render_calls = Some (c, e) ->
  fst (primary (world i) model (widgets i)
         {| log := page_with_form; map_html := p_map_html p;
            cache := Some (Some model) |})
  = Done tt
  /\ In (success ("✅ **Predicted Risk Level: `" ++ prediction ++ "`**")) (log (snd (run p i)))
  /\ In (error ("❌ Prediction failed: " ++ Py.str_exn e)) (log (snd (run p i)))
  /\ In (folium_called c) (log (snd (run p i)))
  /\ existsb is_map_widget (log (snd (run p i))) = false
  /\ verdict_of (log (snd (run p i))) = Failed
  /\ map_html (snd (run p i))
     = match c with
       | folium.call_save => failed_save_leaves (world i) (p_map_html p)
       | folium.call_folium_static =>
           Some (Document (html_of (world i) (rendered_map (world i) prediction (widgets i))))
       | _ => p_map_html p
       end
  /\ fst (run p i)
     = match map_html (snd (run p i)) with
       | Some (Unreadable unread) => Raised unread
       | _ => Done tt
       end.
Proof.
  intros Hl Hs Hp Hf. rewrite (run_loaded p i model Hl), Hs.
  destruct i as [w r sb], p as [old c0]. cbn [world widgets submit p_map_html] in *.
  revert Hf. cbv [first_fault render_calls List.map high_risk_states Datatypes.app fst].
  exec. rewrite Hp. cbv [Py.getitem0]. cbv beta iota.
  split_faults; intros Hf; try discriminate Hf;
    injection Hf as <- <-; settle_file w old; exec; cbv [In];
    repeat split; try reflexivity; tauto.
Qed.

Lemma render_exception_reported_as_prediction_failure_witness :
  In (error "❌ Prediction failed: disk full")
     (log (snd (run {| p_map_html := Some (Document "<html>old</html>"); p_cache := None |}
                    (Demo.submission
                       (Demo.world_of (Some (Py.Returns (Demo.answers "High")))
                                      (Demo.save_fails "disk full"))))))
  /\ verdict_of
       (log (snd (run {| p_map_html := Some (Document "<html>old</html>"); p_cache := None |}
                      (Demo.submission
                         (Demo.world_of (Some (Py.Returns (Demo.answers "High")))
                                        (Demo.save_fails "disk full"))))))
     = Failed
  /\ map_html
       (snd (run {| p_map_html := Some (Document "<html>old</html>"); p_cache := None |}
                 (Demo.submission
                    (Demo.world_of (Some (Py.Returns (Demo.answers "High")))
                                   (Demo.save_fails "disk full")))))
     = Some (Document "<html>old</html>").
Proof.
  destruct (render_exception_reported_as_prediction_failure
              {| p_map_html := Some (Document "<html>old</html>"); p_cache := None |}
              (Demo.submission
                 (Demo.world_of (Some (Py.Returns (Demo.answers "High")))
                                (Demo.save_fails "disk full")))
              (Demo.answers "High") "High" [] folium.call_save (Py.Exception "disk full")
              (or_intror (conj eq_refl eq_refl)) eq_refl eq_refl eq_refl)
    as (_ & _ & Herr & _ & _ & Hverdict & Hfile & _).
  split; [exact Herr | split; [exact Hverdict | exact Hfile]].
Defined.

(* ===================================================================== *)
(** ** Further properties of the script *)
(* ===================================================================== *)

(** *** How a run ends *)

(** A run that has its model shows the form and keeps that model cached;
    it ends normally, unless it is a submission and what is under the map
    file's name after the prediction stage cannot be read. *)
Lemma run_loaded_ends (p : process) (i : interaction) (model : Model) :
  loaded p (world i) model ->
  cache (snd (run p i)) = Some (Some model)
  /\ firstn 5 (log (snd (run p i))) = page_with_form
  /\ fst (run p i)
     = if submit i then full_map_end (map_html (snd (run p i))) else Done tt.
Proof.
  intros Hl. rewrite (run_loaded p i model Hl).
  destruct i as [w r sb], p as [old c]. cbn [world widgets submit p_map_html].
  destruct sb; [| repeat split; reflexivity].
  submission_cases model r; settle_file w old; repeat split; reflexivity.
Qed.

(** A run whose [joblib.load] raises lets the exception through, with the
    page heading written and nothing cached. *)
Lemma run_load_raises (p : process) (i : interaction) (e : Py.exn) :
  p_cache p = None -> model_pkl (world i) = Some (Py.Raises e) ->
  run p i = (Raised e, {| log := preamble; map_html := p_map_html p; cache := None |}).
Proof.
  intros Hc Hpkl. destruct p as [old c]. cbn [p_cache] in Hc. subst c.
  exec. rewrite Hpkl. reflexivity.
Qed.

(** The ways the model check can go: a model, no model, or an exception
    of [joblib.load]. *)
Lemma model_check_cases (p : process) (w : env) :
  (exists model, loaded p w model)
  \/ (p_cache p = Some None
      \/ (p_cache p = None
          /\ (model_pkl w = None \/ model_pkl w = Some (Py.Returns None))))
  \/ (exists e, p_cache p = None /\ model_pkl w = Some (Py.Raises e)).
Proof.
  destruct p as [old [[model |] |]]; cbn [p_cache].
  - left. exists model. left. reflexivity.
  - right. left. left. reflexivity.
  - destruct (model_pkl w) as [[[model |] | e] |] eqn:Hpkl.
    + left. exists model. right. split; [reflexivity | exact Hpkl].
    + right. left. right. split; [reflexivity | right; reflexivity].
    + right. right. exists e. split; reflexivity.
    + right. left. right. split; [reflexivity | left; reflexivity].
Qed.

Lemma full_map_end_not_stopped (f : option file) : full_map_end f <> Stopped.
Proof. destruct f as [[? | ?] |]; discriminate. Qed.

(** X1. How a run ends.  It is stopped exactly when it has no model:
    [None] is cached, or nothing is cached and the model file does not
    exist or unpickles to [None].  It ends with an uncaught exception in
    exactly two cases: nothing is cached and [joblib.load] raises (that
    exception), or the run has its model, was caused by the submit button,
    and what is under the map file's name after the prediction stage
    cannot be read (the exception of the read).  It ends normally in all
    other cases.  No exception of [predict] or of folium ever ends a
    run. *)
Theorem run_outcome_characterised (p : process) (i : interaction) :
  (fst (run p i) = Stopped
   <-> (p_cache p = Some None
        \/ (p_cache p = None
            /\ (model_pkl (world i) = None
                \/ model_pkl (world i) = Some (Py.Returns None)))))
  /\ (forall e,
         fst (run p i) = Raised e
         <-> ((p_cache p = None /\ model_pkl (world i) = Some (Py.Raises e))
              \/ ((exists model, loaded p (world i) model)
                  /\ submit i = true
                  /\ map_html (snd (run p i)) = Some (Unreadable e))))
  /\ (fst (run p i) = Done tt
      <-> ((exists model, loaded p (world i) model)
           /\ (submit i = false
               \/ forall e, map_html (snd (run p i)) <> Some (Unreadable e)))).
Proof.
  destruct (model_check_cases p (world i)) as [[model Hl] | [Hno | [e0 [Hc Hpkl]]]].
  - destruct (run_loaded_ends p i model Hl) as (_ & _ & Hend).
    assert (Hnot : ~ (p_cache p = Some None
                      \/ (p_cache p = None
                          /\ (model_pkl (world i) = None
                              \/ model_pkl (world i) = Some (Py.Returns None))))).
    { destruct Hl as [Hl | [Hl1 Hl2]]; intros [H | [H1 [H2 | H2]]]; congruence. }
    assert (Hnoload : forall e, ~ (p_cache p = None
                                   /\ model_pkl (world i) = Some (Py.Raises e))).
    { destruct Hl as [Hl | [Hl1 Hl2]]; intros e [H1 H2]; congruence. }
    rewrite Hend. destruct (submit i).
    + destruct (map_html (snd (run p i))) as [[text | unread] |]; cbn [full_map_end].
      * split; [split; [discriminate | intros H; exfalso; exact (Hnot H)] |].
        split.
        -- intros e. split; [discriminate |].
           intros [H | (_ & _ & H)]; [exfalso; exact (Hnoload e H) | discriminate H].
        -- split; [intros _ | reflexivity].
           split; [exists model; exact Hl | right; discriminate].
      * split; [split; [discriminate | intros H; exfalso; exact (Hnot H)] |].
        split.
        -- intros e. split.
           ++ intros H. injection H as <-. right.
              split; [exists model; exact Hl | split; reflexivity].
           ++ intros [H | (_ & _ & H)]; [exfalso; exact (Hnoload e H) |].
              injection H as <-. reflexivity.
        -- split; [discriminate |].
           intros (_ & [H | H]); [discriminate H | exfalso; exact (H unread eq_refl)].
      * split; [split; [discriminate | intros H; exfalso; exact (Hnot H)] |].
        split.
        -- intros e. split; [discriminate |].
           intros [H | (_ & _ & H)]; [exfalso; exact (Hnoload e H) | discriminate H].
        -- split; [intros _ | reflexivity].
           split; [exists model; exact Hl | right; discriminate].
    + split; [split; [discriminate | intros H; exfalso; exact (Hnot H)] |].
      split.
      * intros e. split; [discriminate |].
        intros [H | (_ & H & _)]; [exfalso; exact (Hnoload e H) | discriminate H].
      * split; [intros _ | reflexivity].
        split; [exists model; exact Hl | left; reflexivity].
  - assert (Hnl : ~ exists model, loaded p (world i) model).
    { intros [model [H | [H1 H2]]]; destruct Hno as [G | [G1 [G2 | G2]]]; congruence. }
    rewrite (run_without_model p i Hno). cbn [fst].
    split; [split; [intros _; exact Hno | reflexivity] |].
    split.
    + intros e. split; [discriminate |].
      intros [[H1 H2] | (H & _)]; [| exfalso; exact (Hnl H)].
      destruct Hno as [G | [G1 [G2 | G2]]]; congruence.
    + split; [discriminate | intros (H & _); exfalso; exact (Hnl H)].
  - assert (Hnl : ~ exists model, loaded p (world i) model).
    { intros [model [H | [H1 H2]]]; congruence. }
    rewrite (run_load_raises p i e0 Hc Hpkl). cbn [fst snd map_html].
    split; [split; [discriminate | intros [H | [_ [H | H]]]; congruence] |].
    split.
    + intros e. split.
      * intros H. injection H as <-. left. split; assumption.
      * intros [[_ H] | (H & _)]; [congruence | exfalso; exact (Hnl H)].
    + split; [discriminate | intros (H & _); exfalso; exact (Hnl H)].
Qed.

(** X2. An exception of [joblib.load] is not cached: the run ends with
    that exception after the page heading, without the error box of a
    missing model and without the form, and the next run loads the file
    again, so that a file that then unpickles to a model gives a run that
    shows the form, keeps the model cached, is not stopped, and ends
    normally unless it is a submission whose map file cannot be read. *)
Theorem load_exception_is_not_cached
        (p : process) (i : interaction) (e : Py.exn) :
  p_cache p = None ->
  model_pkl (world i) = Some (Py.Raises e) ->
  run p i = (Raised e, {| log := preamble; map_html := p_map_html p; cache := None |})
  /\ forall (next : interaction) (model : Model),
       model_pkl (world next) = Some (Py.Returns (Some model)) ->
       cache (snd (run (after (snd (run p i))) next)) = Some (Some model)
       /\ firstn 5 (log (snd (run (after (snd (run p i))) next))) = page_with_form
       /\ fst (run (after (snd (run p i))) next) <> Stopped
       /\ (submit next = false -> fst (run (after (snd (run p i))) next) = Done tt).
Proof.
  intros Hc Hpkl. rewrite (run_load_raises p i e Hc Hpkl). cbn [snd].
  split; [reflexivity |].
  intros next model Hnext.
  assert (Hl : loaded (after {| log := preamble; map_html := p_map_html p; cache := None |})
                      (world next) model)
    by (right; split; [reflexivity | exact Hnext]).
  destruct (run_loaded_ends _ next model Hl) as (Hk & Hform & Hend).
  split; [exact Hk | split; [exact Hform | split]].
  - rewrite Hend. destruct (submit next); [apply full_map_end_not_stopped | discriminate].
  - intros Hs. rewrite Hend, Hs. reflexivity.
Qed.

Lemma load_exception_is_not_cached_witness :
  run Demo.just_started
      (Demo.submission
         (Demo.world_of (Some (Py.Raises (Py.Exception "invalid load key"))) Demo.no_fault))
  = (Raised (Py.Exception "invalid load key"),
     {| log := preamble; map_html := None; cache := None |}).
Proof.
  exact (proj1 (load_exception_is_not_cached
                  Demo.just_started
                  (Demo.submission
                     (Demo.world_of (Some (Py.Raises (Py.Exception "invalid load key")))
                                    Demo.no_fault))
                  (Py.Exception "invalid load key") eq_refl eq_refl)).
Defined.

(** X3. Once the cache of [load_model] is filled, with a model or with
    [None], a run leaves it as it is and does not look at
    [disaster_model.pkl] any more: whatever the state of the file (gone,
    replaced, unreadable), the run is the same. *)
Theorem filled_cache_is_final
        (p : process) (i : interaction) (c : option Model)
        (pkl : option (Py.result (option Model))) :
  p_cache p = Some c ->
  cache (snd (run p i)) = Some c
  /\ run p {| world := with_model_pkl pkl (world i);
              widgets := widgets i; submit := submit i |}
     = run p i.
Proof.
  intros Hc. destruct c as [model |].
  - assert (Hl : loaded p (world i) model) by (left; exact Hc).
    split; [exact (proj1 (run_loaded_ends p i model Hl)) |].
    rewrite (run_loaded p i model Hl).
    rewrite (run_loaded p _ model) by (left; exact Hc).
    destruct i as [w r sb]. cbn [world widgets submit].
    destruct sb; reflexivity.
  - rewrite !run_without_model by (left; exact Hc).
    split; reflexivity.
Qed.

Lemma filled_cache_is_final_witness :
  cache (snd (run {| p_map_html := None; p_cache := Some (Some (Demo.answers "High")) |}
                  (Demo.submission (Demo.world_of None Demo.no_fault))))
  = Some (Some (Demo.answers "High"))
  /\ run {| p_map_html := None; p_cache := Some (Some (Demo.answers "High")) |}
         {| world := with_model_pkl (Some (Py.Raises (Py.Exception "truncated")))
                                    (Demo.world_of None Demo.no_fault);
            widgets := example_input; submit := true |}
     = run {| p_map_html := None; p_cache := Some (Some (Demo.answers "High")) |}
           (Demo.submission (Demo.world_of None Demo.no_fault)).
Proof.
  exact (filled_cache_is_final
           {| p_map_html := None; p_cache := Some (Some (Demo.answers "High")) |}
           (Demo.submission (Demo.world_of None Demo.no_fault))
           (Some (Demo.answers "High"))
           (Some (Py.Raises (Py.Exception "truncated")))
           eq_refl).
Defined.

(** *** Runs that compute nothing *)

(** A run without a model or without a submission writes one of three
    fixed pages and leaves the map file alone. *)
Lemma idle_run (p : process) (i : interaction) :
  (forall model, ~ loaded p (world i) model) \/ submit i = false ->
  (log (snd (run p i)) = preamble
   \/ log (snd (run p i)) = page_without_model
   \/ log (snd (run p i)) = page_with_form)
  /\ map_html (snd (run p i)) = p_map_html p.
Proof.
  intros Hidle.
  destruct (model_check_cases p (world i)) as [[model Hl] | [Hno | [e0 [Hc Hpkl]]]].
  - destruct Hidle as [Hnl | Hs]; [exfalso; exact (Hnl model Hl) |].
    rewrite (run_loaded p i model Hl), Hs. split; [right; right |]; reflexivity.
  - rewrite (run_without_model p i Hno). split; [right; left |]; reflexivity.
  - rewrite (run_load_raises p i e0 Hc Hpkl). split; [left |]; reflexivity.
Qed.

(** Such a run calls neither [predict] nor folium. *)
Lemma nothing_idle_calls (p : process) (i : interaction) :
  (forall model, ~ loaded p (world i) model) \/ submit i = false ->
  predict_calls (log (snd (run p i))) = []
  /\ folium_calls (log (snd (run p i))) = []
  /\ existsb is_map_widget (log (snd (run p i))) = false.
Proof.
  intros Hidle. destruct (idle_run p i Hidle) as [[-> | [-> | ->]] _];
    repeat split; reflexivity.
Qed.

(** X4. Unless a run has its model and was caused by the submit button,
    it computes nothing: it does not call [predict], makes no folium call,
    shows no map, writes neither a success nor a prediction error nor the
    "View Full Risk Map" section, and leaves the map file as it was. *)
Theorem nothing_happens_without_submission (p : process) (i : interaction) :
  (forall model, ~ loaded p (world i) model) \/ submit i = false ->
  predict_calls (log (snd (run p i))) = []
  /\ folium_calls (log (snd (run p i))) = []
  /\ existsb is_map_widget (log (snd (run p i))) = false
  /\ existsb is_success (log (snd (run p i))) = false
  /\ existsb is_prediction_error (log (snd (run p i))) = false
  /\ ~ In (subheader "📍 View Full Risk Map") (log (snd (run p i)))
  /\ map_html (snd (run p i)) = p_map_html p.
Proof.
  intros Hidle. destruct (idle_run p i Hidle) as [Hpage Hfile].
  assert (Hnot : forall page : list event,
             existsb (fun ev => match ev with subheader _ => true | _ => false end) page
             = false ->
             ~ In (subheader "📍 View Full Risk Map") page).
  { intros page Hp Hin.
    assert (Ht : existsb (fun ev => match ev with subheader _ => true | _ => false end) page
                 = true)
      by (apply existsb_exists; eexists; split; [exact Hin | reflexivity]).
    congruence. }
  destruct Hpage as [-> | [-> | ->]];
    (repeat split; try reflexivity; try exact Hfile; apply Hnot; reflexivity).
Qed.

Lemma nothing_happens_without_submission_witness :
  predict_calls
    (log (snd (run Demo.just_started
                   {| world := Demo.world_of (Some (Py.Returns (Demo.answers "High")))
                                             Demo.no_fault;
                      widgets := example_input; submit := false |})))
  = []
  /\ folium_calls
       (log (snd (run Demo.just_started
                      {| world := Demo.world_of (Some (Py.Returns (Demo.answers "High")))
                                                Demo.no_fault;
                         widgets := example_input; submit := false |})))
     = [].
Proof.
  destruct (nothing_happens_without_submission
              Demo.just_started
              {| world := Demo.world_of (Some (Py.Returns (Demo.answers "High")))
                                        Demo.no_fault;
                 widgets := example_input; submit := false |}
              (or_intror eq_refl))
    as (Hp & Hf & _).
  split; [exact Hp | exact Hf].
Defined.

(** *** The submission that succeeds *)

(** The run of a submission whose [predict] returns a label and whose
    folium calls all return. *)
Lemma run_success (p : process) (i : interaction) (model : Model)
      (prediction : string) (others : list string) :
  loaded p (world i) model ->
  submit i = true ->
  predict model (input_features (widgets i)) = Py.Returns (prediction :: others) ->
  first_fault (world i) render_calls = None ->
  run p i
  = (Done tt,
     {| log := (page_with_form
                  ++ [ predict_called (input_features (widgets i));
                       success ("✅ **Predicted Risk Level: `" ++ prediction ++ "`**");
                       header "🗺️ Visualize Location on Risk Map" ]
                  ++ List.map folium_called render_calls
                  ++ [ map_widget (rendered_map (world i) prediction (widgets i));
                       subheader "📍 View Full Risk Map";
                       components_html
                         (html_of (world i) (rendered_map (world i) prediction (widgets i)))
                         600 true ])%list;
        map_html :=
          Some (Document
                  (html_of (world i) (rendered_map (world i) prediction (widgets i))));
        cache := Some (Some model) |}).
Proof.
  intros Hl Hs Hp Hf. rewrite (run_loaded p i model Hl), Hs.
  destruct i as [w r sb], p as [old c0]. cbn [world widgets submit p_map_html] in *.
  revert Hf. cbv [first_fault render_calls List.map high_risk_states Datatypes.app fst].
  exec. rewrite Hp. cbv [Py.getitem0]. cbv beta iota.
  split_faults; intros Hf; try discriminate Hf.
  reflexivity.
Qed.

(** X5. A submission whose [predict] returns at least one label and whose
    folium calls all return gives this page, in this order: the form, the
    call of [predict], the success message with the first label, the map
    heading, the nine folium calls (map, marker, five circles, save,
    display), the map, the "View Full Risk Map" heading and, embedded, the
    document just saved for that same map.  The labels after the first
    are ignored, the map file holds the new document, and the submission
    counts as succeeded. *)
Theorem successful_submission_page
        (p : process) (i : interaction) (model : Model)
        (prediction : string) (others : list string) :
  loaded p (world i) model ->
  submit i = true ->
  predict model (input_features (widgets i)) = Py.Returns (prediction :: others) ->
  first_fault (world i) render_calls = None ->
  let shown := rendered_map (world i) prediction (widgets i) in
  fst (run p i) = Done tt
  /\ log (snd (run p i))
     = (page_with_form
          ++ [ predict_called (input_features (widgets i));
               success ("✅ **Predicted Risk Level: `" ++ prediction ++ "`**");
               header "🗺️ Visualize Location on Risk Map";
               folium_called folium.call_Map;
               folium_called folium.call_Marker;
               folium_called (folium.call_Circle "Bihar");
               folium_called (folium.call_Circle "Assam");
               folium_called (folium.call_Circle "Odisha");
               folium_called (folium.call_Circle "Uttarakhand");
               folium_called (folium.call_Circle "Tamil Nadu");
               folium_called folium.call_save;
               folium_called folium.call_folium_static;
               map_widget shown;
               subheader "📍 View Full Risk Map";
               components_html (html_of (world i) shown) 600 true ])%list
  /\ map_html (snd (run p i)) = Some (Document (html_of (world i) shown))
  /\ verdict_of (log (snd (run p i))) = Succeeded.
Proof.
  intros Hl Hs Hp Hf shown. subst shown.
  rewrite (run_success p i model prediction others Hl Hs Hp Hf).
  cbn [fst snd log map_html].
  repeat split; reflexivity.
Qed.

Lemma successful_submission_page_witness :
  map_html
    (snd (run Demo.just_started
              (Demo.submission
                 (Demo.world_of (Some (Py.Returns (Demo.answers "Medium"))) Demo.no_fault))))
  = Some (Document "<html>map</html>")
  /\ verdict_of
       (log (snd (run Demo.just_started
                      (Demo.submission
                         (Demo.world_of (Some (Py.Returns (Demo.answers "Medium")))
                                        Demo.no_fault)))))
     = Succeeded.
Proof.
  destruct (successful_submission_page
              Demo.just_started
              (Demo.submission
                 (Demo.world_of (Some (Py.Returns (Demo.answers "Medium"))) Demo.no_fault))
              (Demo.answers "Medium") "Medium" []
              (or_intror (conj eq_refl eq_refl)) eq_refl eq_refl eq_refl)
    as (_ & _ & Hfile & Hverdict).
  split; [exact Hfile | exact Hverdict].
Defined.

(** *** The map file and the maps shown *)

(** X6. A map is shown only after it was saved: whenever a run shows a
    map, in whatever environment, the map file then holds the document of
    that very map, the "View Full Risk Map" section embeds that same
    document, the page carries no prediction error, and [predict] had
    returned a label, which is the one in the success message. *)
Theorem shown_map_is_the_saved_one (p : process) (i : interaction) (m : folium.Map) :
  In (map_widget m) (log (snd (run p i))) ->
  map_html (snd (run p i)) = Some (Document (html_of (world i) m))
  /\ In (components_html (html_of (world i) m) 600 true) (log (snd (run p i)))
  /\ verdict_of (log (snd (run p i))) = Succeeded
  /\ exists prediction : string,
       m = rendered_map (world i) prediction (widgets i)
       /\ In (success ("✅ **Predicted Risk Level: `" ++ prediction ++ "`**"))
             (log (snd (run p i))).
Proof.
  intros Hin.
  destruct (loaded_or_not p (world i)) as [[model Hl] | Hno];
    [| exfalso; exact (no_model_no_map p i m Hno Hin)].
  revert Hin. rewrite (run_loaded p i model Hl).
  destruct i as [w r sb], p as [old c]. cbn [world widgets submit p_map_html].
  destruct sb; [| intros H; exfalso; revert H; apply no_map_widget; reflexivity].
  submission_cases model r; settle_file w old; exec; cbv [In];
    intros H; repeat (destruct H as [H | H]; [try discriminate H |]);
    try (exfalso; exact H);
    injection H as H; subst m;
    (split; [reflexivity |]); (split; [tauto |]); (split; [reflexivity |]);
    exists prediction; (split; [reflexivity | tauto]).
Qed.

Lemma shown_map_is_the_saved_one_witness :
  map_html
    (snd (run Demo.just_started
              (Demo.submission
                 (Demo.world_of (Some (Py.Returns (Demo.answers "High"))) Demo.no_fault))))
  = Some (Document "<html>map</html>").
Proof.
  exact (proj1 (shown_map_is_the_saved_one
                  Demo.just_started
                  (Demo.submission
                     (Demo.world_of (Some (Py.Returns (Demo.answers "High"))) Demo.no_fault))
                  _ demo_run_shows_map)).
Defined.

(** X7. The map file changes only through [map_object.save]: a run on
    whose page [save] was not called, for whatever reason (no model, no
    submission, an exception of [predict] or of an earlier folium call),
    leaves the file exactly as it found it. *)
Theorem map_file_changes_only_through_save (p : process) (i : interaction) :
  ~ In folium.call_save (folium_calls (log (snd (run p i)))) ->
  map_html (snd (run p i)) = p_map_html p.
Proof.
  destruct (loaded_or_not p (world i)) as [[model Hl] | Hno];
    [| intros _; exact (proj2 (idle_run p i (or_introl Hno)))].
  destruct (submit i) eqn:Hs;
    [| intros _; exact (proj2 (idle_run p i (or_intror Hs)))].
  rewrite (run_loaded p i model Hl), Hs.
  destruct i as [w r sb], p as [old c]. cbn [world widgets submit p_map_html].
  submission_cases model r; settle_file w old; exec;
    cbv [folium_calls flat_map Datatypes.app In]; intros Hns;
    try reflexivity; exfalso; apply Hns; tauto.
Qed.

Lemma map_file_changes_only_through_save_witness :
  map_html
    (snd (run {| p_map_html := Some (Document "<html>old</html>"); p_cache := None |}
              (Demo.submission
                 (Demo.world_of (Some (Py.Returns (Demo.broken "no such column")))
                                Demo.no_fault))))
  = Some (Document "<html>old</html>").
Proof.
  apply (map_file_changes_only_through_save
           {| p_map_html := Some (Document "<html>old</html>"); p_cache := None |}
           (Demo.submission
              (Demo.world_of (Some (Py.Returns (Demo.broken "no such column")))
                             Demo.no_fault))).
  cbv - [Py.float_lit Py.float_of_int Py.fadd Py.fmul Py.fdiv].
  intros H; exact H.
Defined.

(** X8. The "View Full Risk Map" section shows the map of an earlier
    submission when the present one fails at [predict]: after a submission
    that succeeded, a submission whose [predict] raises embeds, under its
    error message, the document saved for the earlier submission's map,
    with the earlier label and coordinates. *)
Theorem failed_prediction_shows_previous_map
        (p : process) (i1 i2 : interaction) (model : Model)
        (prediction : string) (others : list string) (e : Py.exn) :
  loaded p (world i1) model ->
  submit i1 = true ->
  predict model (input_features (widgets i1)) = Py.Returns (prediction :: others) ->
  first_fault (world i1) render_calls = None ->
  submit i2 = true ->
  predict model (input_features (widgets i2)) = Py.Raises e ->
  List.map (fun r => (fst r, map_html (snd r))) (session p [i1; i2])
  = [ (Done tt,
       Some (Document
               (html_of (world i1) (rendered_map (world i1) prediction (widgets i1)))));
      (Done tt,
       Some (Document
               (html_of (world i1) (rendered_map (world i1) prediction (widgets i1))))) ]
  /\ List.map (fun r => log (snd r)) (List.tl (session p [i1; i2]))
     = [ (page_with_form
            ++ [ predict_called (input_features (widgets i2));
                 error ("❌ Prediction failed: " ++ Py.str_exn e);
                 subheader "📍 View Full Risk Map";
                 components_html
                   (html_of (world i1) (rendered_map (world i1) prediction (widgets i1)))
                   600 true ])%list ].
Proof.
  intros Hl1 Hs1 Hp1 Hf1 Hs2 Hp2.
  cbn [session List.map List.tl].
  rewrite (run_success p i1 model prediction others Hl1 Hs1 Hp1 Hf1).
  cbn [snd after map_html cache].
  match goal with
  | |- context [run ?q i2] =>
      assert (Hl2 : loaded q (world i2) model) by (left; reflexivity);
      rewrite (run_predict_raises q i2 model e Hl2 Hs2 Hp2)
  end.
  cbn [fst snd map_html log p_map_html full_map_section full_map_end Datatypes.app].
  split; reflexivity.
Qed.

Lemma failed_prediction_shows_previous_map_witness :
  List.map (fun r => (fst r, map_html (snd r)))
           (session {| p_map_html := None;
                       p_cache := Some (Some (Demo.only_score_5 "High" "out of range")) |}
                    [ Demo.submission (Demo.world_of None Demo.no_fault);
                      {| world := Demo.world_of None Demo.no_fault;
                         widgets := highest_input; submit := true |} ])
  = [ (Done tt, Some (Document "<html>map</html>")); (Done tt, Some (Document "<html>map</html>")) ].
Proof.
  exact (proj1 (failed_prediction_shows_previous_map
                  {| p_map_html := None;
                     p_cache := Some (Some (Demo.only_score_5 "High" "out of range")) |}
                  (Demo.submission (Demo.world_of None Demo.no_fault))
                  {| world := Demo.world_of None Demo.no_fault;
                     widgets := highest_input; submit := true |}
                  (Demo.only_score_5 "High" "out of range") "High" []
                  (Py.Exception "out of range")
                  (or_introl eq_refl) eq_refl eq_refl eq_refl eq_refl eq_refl)).
Defined.

(** *** What a submission shows *)

(** X9. A submission shows either one map and no error, or one prediction
    error and no map, never both and never neither; it counts as succeeded
    in the first case and as failed in the second. *)
Theorem submission_shows_map_or_error (p : process) (i : interaction) (model : Model) :
  loaded p (world i) model ->
  submit i = true ->
  (verdict_of (log (snd (run p i))) = Succeeded
   /\ List.length (filter is_map_widget (log (snd (run p i)))) = 1%nat
   /\ filter is_error (log (snd (run p i))) = [])
  \/ (verdict_of (log (snd (run p i))) = Failed
      /\ filter is_map_widget (log (snd (run p i))) = []
      /\ List.length (filter is_error (log (snd (run p i)))) = 1%nat).
Proof.
  intros Hl Hs. rewrite (run_loaded p i model Hl), Hs.
  destruct i as [w r sb], p as [old c]. cbn [world widgets submit p_map_html].
  submission_cases model r; settle_file w old;
    first [ left; repeat split; reflexivity | right; repeat split; reflexivity ].
Qed.

Lemma submission_shows_map_or_error_witness :
  (verdict_of
     (log (snd (run Demo.just_started
                    (Demo.submission
                       (Demo.world_of (Some (Py.Returns (Demo.answers "Low")))
                                      (Demo.save_fails "read-only file system"))))))
   = Succeeded
   /\ List.length
        (filter is_map_widget
           (log (snd (run Demo.just_started
                          (Demo.submission
                             (Demo.world_of (Some (Py.Returns (Demo.answers "Low")))
                                            (Demo.save_fails "read-only file system")))))))
      = 1%nat
   /\ filter is_error
        (log (snd (run Demo.just_started
                       (Demo.submission
                          (Demo.world_of (Some (Py.Returns (Demo.answers "Low")))
                                         (Demo.save_fails "read-only file system"))))))
      = [])
  \/ (verdict_of
        (log (snd (run Demo.just_started
                       (Demo.submission
                          (Demo.world_of (Some (Py.Returns (Demo.answers "Low")))
                                         (Demo.save_fails "read-only file system"))))))
      = Failed
      /\ filter is_map_widget
           (log (snd (run Demo.just_started
                          (Demo.submission
                             (Demo.world_of (Some (Py.Returns (Demo.answers "Low")))
                                            (Demo.save_fails "read-only file system"))))))
         = []
      /\ List.length
           (filter is_error
              (log (snd (run Demo.just_started
                             (Demo.submission
                                (Demo.world_of (Some (Py.Returns (Demo.answers "Low")))
                                               (Demo.save_fails "read-only file system")))))))
         = 1%nat).
Proof.
  exact (submission_shows_map_or_error
           Demo.just_started
           (Demo.submission
              (Demo.world_of (Some (Py.Returns (Demo.answers "Low")))
                             (Demo.save_fails "read-only file system")))
           (Demo.answers "Low")
           (or_intror (conj eq_refl eq_refl)) eq_refl).
Defined.

(** X10. When [predict] returns without a single label, taking its first
    element raises inside the [try]: the submission fails with a
    prediction error, without a success message, without any folium call
    or map, and with the map file untouched.  The run then goes on to the
    "View Full Risk Map" section and ends normally, unless what is under
    the map file's name cannot be read. *)
Theorem empty_prediction_fails (p : process) (i : interaction) (model : Model) :
  loaded p (world i) model ->
  submit i = true ->
  predict model (input_features (widgets i)) = Py.Returns [] ->
  fst (run p i) = full_map_end (p_map_html p)
  /\ verdict_of (log (snd (run p i))) = Failed
  /\ List.length (filter is_error (log (snd (run p i)))) = 1%nat
  /\ existsb is_success (log (snd (run p i))) = false
  /\ folium_calls (log (snd (run p i))) = []
  /\ existsb is_map_widget (log (snd (run p i))) = false
  /\ map_html (snd (run p i)) = p_map_html p.
Proof.
  intros Hl Hs Hp. rewrite (run_loaded p i model Hl), Hs.
  destruct i as [w r sb], p as [old c]. cbn [world widgets submit p_map_html] in *.
  exec. rewrite Hp. cbv [Py.getitem0]. cbv beta iota.
  settle_file w old; repeat split; reflexivity.
Qed.

Lemma empty_prediction_fails_witness :
  verdict_of
    (log (snd (run Demo.just_started
                   (Demo.submission
                      (Demo.world_of (Some (Py.Returns {| predict := fun _ => Py.Returns [] |}))
                                     Demo.no_fault)))))
  = Failed.
Proof.
  exact (proj1 (proj2 (empty_prediction_fails
                         Demo.just_started
                         (Demo.submission
                            (Demo.world_of
                               (Some (Py.Returns {| predict := fun _ => Py.Returns [] |}))
                               Demo.no_fault))
                         {| predict := fun _ => Py.Returns [] |}
                         (or_intror (conj eq_refl eq_refl)) eq_refl eq_refl))).
Defined.

(** X11. The folium calls of a run are always an initial part of the
    fixed sequence map, marker, Bihar, Assam, Odisha, Uttarakhand, Tamil
    Nadu, save, display: no call is made out of order or twice, [save] is
    never reached unless the map, the marker and all five circles were
    built, and the map is never displayed unless it was saved. *)
Theorem folium_calls_in_order (p : process) (i : interaction) :
  exists n : nat, folium_calls (log (snd (run p i))) = firstn n render_calls.
Proof.
  destruct (loaded_or_not p (world i)) as [[model Hl] | Hno];
    [| exists 0%nat;
       exact (proj1 (proj2 (nothing_idle_calls p i (or_introl Hno))))].
  destruct (submit i) eqn:Hs;
    [| exists 0%nat;
       exact (proj1 (proj2 (nothing_idle_calls p i (or_intror Hs))))].
  rewrite (run_loaded p i model Hl), Hs.
  destruct i as [w r sb], p as [old c]. cbn [world widgets submit p_map_html].
  submission_cases model r; settle_file w old;
    first [ exists 0%nat; reflexivity | exists 1%nat; reflexivity
          | exists 2%nat; reflexivity | exists 3%nat; reflexivity
          | exists 4%nat; reflexivity | exists 5%nat; reflexivity
          | exists 6%nat; reflexivity | exists 7%nat; reflexivity
          | exists 8%nat; reflexivity | exists 9%nat; reflexivity ].
Qed.

(** *** The loop over the states *)

Lemma written_nil (s : state) : written s [] = s.
Proof. destruct s as [l f c]. unfold written. cbn [log map_html cache]. rewrite app_nil_r. reflexivity. Qed.

Lemma written_written (s : state) (a b : list event) :
  written (written s a) b = written s (a ++ b).
Proof. unfold written. cbn [log map_html cache]. rewrite app_assoc. reflexivity. Qed.

(** One turn of the loop: the call is logged, and it returns or raises as
    the environment says. *)
Lemma folium_call_returns (w : env) (c : folium.call) (s : state) :
  fault w c = None ->
  folium_call w c s = (Done tt, written s [folium_called c]).
Proof. intros H. unfold folium_call, bind, emit. rewrite H. reflexivity. Qed.

Lemma folium_call_raises (w : env) (c : folium.call) (e : Py.exn) (s : state) :
  fault w c = Some e ->
  folium_call w c s = (Raised e, written s [folium_called c]).
Proof. intros H. unfold folium_call, bind, emit. rewrite H. reflexivity. Qed.

Lemma draw_circles_cons (w : env) (entry : string * list Py.float)
      (states : list (string * list Py.float)) (m : folium.Map) (s : state) :
  draw_circles w (entry :: states) m s
  = match folium_call w (folium.call_Circle (fst entry)) s with
    | (Done _, s') => draw_circles w states (folium.add_to (state_circle entry) m) s'
    | (Raised e, s') => (Raised e, s')
    | (Stopped, s') => (Stopped, s')
    end.
Proof.
  unfold draw_circles. cbn [for_each]. unfold bind at 1 2.
  destruct (folium_call w (folium.call_Circle (fst entry)) s) as [[[] | e |] s'];
    reflexivity.
Qed.

(** X12. The loop over a dict of states, when none of its [Circle] calls
    raises, makes one call per entry in the dict's order and returns the
    map with one circle per entry appended in that order after the layers
    it already had, its centre, zoom and tiles unchanged; it touches
    neither the map file nor the cache. *)
Theorem draw_circles_adds_one_circle_per_entry
        (w : env) (states : list (string * list Py.float))
        (m : folium.Map) (s : state) :
  (forall entry, In entry states -> fault w (folium.call_Circle (fst entry)) = None) ->
  exists m' : folium.Map,
    draw_circles w states m s
    = (Done m',
       written s (List.map (fun entry => folium_called (folium.call_Circle (fst entry)))
                           states))
    /\ folium.children m' = (folium.children m ++ List.map state_circle states)%list
    /\ folium.map_location m' = folium.map_location m
    /\ folium.zoom_start m' = folium.zoom_start m
    /\ folium.tiles m' = folium.tiles m.
Proof.
  revert m s. induction states as [| entry states IH]; intros m s Hok.
  - exists m. cbn [List.map]. rewrite written_nil, app_nil_r. repeat split; reflexivity.
  - rewrite draw_circles_cons.
    rewrite folium_call_returns by (apply Hok; left; reflexivity).
    destruct (IH (folium.add_to (state_circle entry) m)
                 (written s [folium_called (folium.call_Circle (fst entry))]))
      as (m' & Hrun & Hch & Hloc & Hzoom & Htiles).
    { intros entry' Hin. apply Hok. right. exact Hin. }
    exists m'. rewrite Hrun, written_written. cbn [List.map Datatypes.app].
    split; [reflexivity |].
    rewrite Hch, Hloc, Hzoom, Htiles. cbn [folium.add_to folium.children
      folium.map_location folium.zoom_start folium.tiles].
    rewrite <- app_assoc. repeat split; reflexivity.
Qed.

Lemma draw_circles_adds_one_circle_per_entry_witness :
  exists m' : folium.Map,
    draw_circles (Demo.world_of None Demo.no_fault)
                 [("Kerala", [Py.float_lit 105 1; Py.float_lit 763 1])]
                 (rendered_map (Demo.world_of None Demo.no_fault) "Low" example_input)
                 (fresh_page Demo.just_started)
    = (Done m',
       written (fresh_page Demo.just_started)
               (List.map (fun entry => folium_called (folium.call_Circle (fst entry)))
                         [("Kerala", [Py.float_lit 105 1; Py.float_lit 763 1])]))
    /\ folium.children m'
       = (folium.children
            (rendered_map (Demo.world_of None Demo.no_fault) "Low" example_input)
            ++ List.map state_circle
                        [("Kerala", [Py.float_lit 105 1; Py.float_lit 763 1])])%list
    /\ folium.map_location m'
       = folium.map_location
           (rendered_map (Demo.world_of None Demo.no_fault) "Low" example_input)
    /\ folium.zoom_start m'
       = folium.zoom_start
           (rendered_map (Demo.world_of None Demo.no_fault) "Low" example_input)
    /\ folium.tiles m'
       = folium.tiles (rendered_map (Demo.world_of None Demo.no_fault) "Low" example_input).
Proof.
  apply (draw_circles_adds_one_circle_per_entry
           (Demo.world_of None Demo.no_fault)
           [("Kerala", [Py.float_lit 105 1; Py.float_lit 763 1])]
           (rendered_map (Demo.world_of None Demo.no_fault) "Low" example_input)
           (fresh_page Demo.just_started)).
  intros entry _. reflexivity.
Defined.

(** X13. The loop stops at the first entry whose [Circle] call raises:
    the calls for the entries before it and for that entry are made, in
    order, none for the entries after it, and the exception leaves the
    loop with the map file and the cache untouched. *)
Theorem draw_circles_stops_at_first_exception
        (w : env) (before rest : list (string * list Py.float))
        (entry : string * list Py.float) (e : Py.exn)
        (m : folium.Map) (s : state) :
  (forall entry', In entry' before -> fault w (folium.call_Circle (fst entry')) = None) ->
  fault w (folium.call_Circle (fst entry)) = Some e ->
  draw_circles w (before ++ entry :: rest) m s
  = (Raised e,
     written s (List.map (fun entry' => folium_called (folium.call_Circle (fst entry')))
                         (before ++ [entry]))).
Proof.
  revert m s. induction before as [| first before IH]; intros m s Hok He.
  - cbn [Datatypes.app List.map]. rewrite draw_circles_cons.
    rewrite (folium_call_raises w _ e s He). reflexivity.
  - cbn [Datatypes.app List.map]. rewrite draw_circles_cons.
    rewrite folium_call_returns by (apply Hok; left; reflexivity).
    rewrite IH; [| intros entry' Hin; apply Hok; right; exact Hin | exact He].
    rewrite written_written. reflexivity.
Qed.

Lemma draw_circles_stops_at_first_exception_witness :
  draw_circles
    {| model_pkl := None;
       fault := fun c => match c with
                         | folium.call_Circle "Assam" => Some (Py.Exception "bad location")
                         | _ => None
                         end;
       html_of := fun _ => "";
       failed_save_leaves := fun old => old;
       repr_float := fun _ => "" |}
    ([("Bihar", [Py.float_lit 259 1; Py.float_lit 851 1])]
       ++ ("Assam", [Py.float_lit 262 1; Py.float_lit 917 1])
       :: [("Odisha", [Py.float_lit 209 1; Py.float_lit 851 1])])
    (rendered_map (Demo.world_of None Demo.no_fault) "Low" example_input)
    (fresh_page Demo.just_started)
  = (Raised (Py.Exception "bad location"),
     written (fresh_page Demo.just_started)
             (List.map (fun entry' => folium_called (folium.call_Circle (fst entry')))
                       ([("Bihar", [Py.float_lit 259 1; Py.float_lit 851 1])]
                          ++ [("Assam", [Py.float_lit 262 1; Py.float_lit 917 1])]))).
Proof.
  apply (draw_circles_stops_at_first_exception
           {| model_pkl := None;
              fault := fun c => match c with
                                | folium.call_Circle "Assam" =>
                                    Some (Py.Exception "bad location")
                                | _ => None
                                end;
              html_of := fun _ => "";
              failed_save_leaves := fun old => old;
              repr_float := fun _ => "" |}
           [("Bihar", [Py.float_lit 259 1; Py.float_lit 851 1])]
           [("Odisha", [Py.float_lit 209 1; Py.float_lit 851 1])]
           ("Assam", [Py.float_lit 262 1; Py.float_lit 917 1])
           (Py.Exception "bad location")).
  - intros entry' [<- | []]. reflexivity.
  - reflexivity.
Defined.

(** *** The risk index is a finite number *)

(** The number of binary digits of a positive number bounds it on both
    sides. *)
Lemma digits2_pos_bounds (p : positive) :
  2 ^ (Z.pos (digits2_pos p) - 1) <= Z.pos p < 2 ^ Z.pos (digits2_pos p).
Proof.
  induction p as [p IH | p IH |]; cbn [digits2_pos].
  - rewrite Pos2Z.inj_succ, (Pos2Z.inj_xI p).
    replace (Z.succ (Z.pos (digits2_pos p)) - 1)
      with (Z.succ (Z.pos (digits2_pos p) - 1)) by lia.
    rewrite !Z.pow_succ_r by lia.
    generalize dependent (2 ^ (Z.pos (digits2_pos p) - 1)).
    generalize (2 ^ Z.pos (digits2_pos p)). intros; lia.
  - rewrite Pos2Z.inj_succ, (Pos2Z.inj_xO p).
    replace (Z.succ (Z.pos (digits2_pos p)) - 1)
      with (Z.succ (Z.pos (digits2_pos p) - 1)) by lia.
    rewrite !Z.pow_succ_r by lia.
    generalize dependent (2 ^ (Z.pos (digits2_pos p) - 1)).
    generalize (2 ^ Z.pos (digits2_pos p)). intros; lia.
  - cbn. lia.
Qed.

Lemma digits2_pos_le (p : positive) (k : Z) :
  0 <= k -> Z.pos p < 2 ^ k -> Z.pos (digits2_pos p) <= k.
Proof.
  intros Hk Hp. destruct (digits2_pos_bounds p) as [Hlo _].
  destruct (Z.le_gt_cases (Z.pos (digits2_pos p)) k) as [H | H]; [exact H |].
  exfalso.
  assert (2 ^ k <= 2 ^ (Z.pos (digits2_pos p) - 1)) by (apply Z.pow_le_mono_r; lia).
  lia.
Qed.

(** One shift to the right halves the mantissa. *)
Lemma shr_1_halves (mrs : shr_record) :
  0 <= shr_m mrs ->
  0 <= shr_m (shr_1 mrs)
  /\ 2 * shr_m (shr_1 mrs) <= shr_m mrs < 2 * shr_m (shr_1 mrs) + 2.
Proof.
  destruct mrs as [m r s]. cbn [shr_m]. intros Hm.
  destruct m as [| [p | p |] | p]; cbn [shr_1 shr_m]; lia.
Qed.

Lemma iter_shr_1 (n : positive) (mrs : shr_record) :
  0 <= shr_m mrs ->
  0 <= shr_m (iter_pos shr_1 n mrs)
  /\ shr_m (iter_pos shr_1 n mrs) * 2 ^ Z.pos n <= shr_m mrs
     < (shr_m (iter_pos shr_1 n mrs) + 1) * 2 ^ Z.pos n.
Proof.
  revert mrs. induction n as [n IH | n IH |]; intros mrs Hm; cbn [iter_pos].
  - destruct (shr_1_halves mrs Hm) as (H0 & H1).
    destruct (IH (shr_1 mrs) H0) as (H2 & H3).
    destruct (IH (iter_pos shr_1 n (shr_1 mrs)) H2) as (H4 & H5).
    split; [exact H4 |].
    rewrite (Pos2Z.inj_xI n).
    replace (2 * Z.pos n + 1) with (Z.pos n + Z.pos n + 1) by lia.
    rewrite !Z.pow_add_r, Z.pow_1_r by lia.
    assert (0 < 2 ^ Z.pos n) by (apply Z.pow_pos_nonneg; lia).
    nia.
  - destruct (IH mrs Hm) as (H2 & H3).
    destruct (IH (iter_pos shr_1 n mrs) H2) as (H4 & H5).
    split; [exact H4 |].
    rewrite (Pos2Z.inj_xO n).
    replace (2 * Z.pos n) with (Z.pos n + Z.pos n) by lia.
    rewrite !Z.pow_add_r by lia.
    assert (0 < 2 ^ Z.pos n) by (apply Z.pow_pos_nonneg; lia).
    nia.
  - destruct (shr_1_halves mrs Hm) as (H0 & H1).
    split; [exact H0 |]. change (2 ^ 1) with 2. lia.
Qed.

Lemma pow2_pos (k : Z) : 0 < 2 ^ k -> 0 <= k.
Proof.
  intros H. destruct (Z.le_gt_cases 0 k) as [Hk | Hk]; [exact Hk |].
  rewrite Z.pow_neg_r in H by lia. lia.
Qed.

(** A shift to the right by [n] of a number below [2^b] is below
    [2^(b-n)]. *)
Lemma shifted_below (m' m n b : Z) :
  0 < n -> 0 < m' -> m' * 2 ^ n <= m -> m < 2 ^ b -> m' < 2 ^ (b - n).
Proof.
  intros Hn Hm' Hle Hlt.
  assert (Hpn : 0 < 2 ^ n) by (apply Z.pow_pos_nonneg; lia).
  assert (Hb : 0 <= b) by (apply pow2_pos; lia).
  assert (Hnb : n < b).
  { destruct (Z.lt_ge_cases n b) as [H | H]; [exact H | exfalso].
    assert (2 ^ b <= 2 ^ n) by (apply Z.pow_le_mono_r; lia). nia. }
  replace b with ((b - n) + n) in Hlt by lia.
  rewrite Z.pow_add_r in Hlt by lia.
  nia.
Qed.

Lemma shr_m_of_loc (m : Z) (l : location) : shr_m (shr_record_of_loc m l) = m.
Proof. destruct l as [| []]; reflexivity. Qed.

Lemma Zdigits2_le (m k : Z) : 0 <= m -> 0 <= k -> m < 2 ^ k -> Zdigits2 m <= k.
Proof.
  intros Hm Hk Hlt. destruct m as [| p | p]; cbn [Zdigits2]; [lia | | lia].
  apply digits2_pos_le; assumption.
Qed.

Lemma Zdigits2_bound (m : Z) : 0 <= m -> m < 2 ^ Zdigits2 m.
Proof.
  intros Hm. destruct m as [| p | p]; cbn [Zdigits2]; [cbn; lia | | lia].
  apply digits2_pos_bounds.
Qed.

(** Rounding to the format: the mantissa fits 53 bits, the value stays
    below the power of two it was below, and the exponent is the larger
    of the given one and the format's. *)
Lemma shr_fexp_bounds (m e k : Z) (l : location) :
  0 <= m -> m < 2 ^ (k - e) -> 
  0 <= shr_m (fst (shr_fexp Py.prec Py.emax m e l))
  /\ shr_m (fst (shr_fexp Py.prec Py.emax m e l)) < 2 ^ 53
  /\ (shr_m (fst (shr_fexp Py.prec Py.emax m e l)) = 0
      \/ shr_m (fst (shr_fexp Py.prec Py.emax m e l))
         < 2 ^ (k - snd (shr_fexp Py.prec Py.emax m e l)))
  /\ snd (shr_fexp Py.prec Py.emax m e l) <= Z.max e (Z.max (k - 53) (-1074)).
Proof.
  intros Hm Hlt.
  assert (Hke : 0 <= k - e) by (apply pow2_pos; lia).
  assert (Hd : Zdigits2 m <= k - e) by (apply Zdigits2_le; assumption).
  pose proof (Zdigits2_bound m Hm) as Hdm.
  unfold shr_fexp, shr.
  assert (Hf : fexp Py.prec Py.emax (Zdigits2 m + e)
               = Z.max (Zdigits2 m + e - 53) (-1074)) by reflexivity.
  rewrite Hf.
  destruct (Z.max (Zdigits2 m + e - 53) (-1074) - e) as [| n | n] eqn:Hn;
    cbn [fst snd]; rewrite ?shr_m_of_loc.
  - assert (Zdigits2 m <= 53) by lia.
    assert (2 ^ Zdigits2 m <= 2 ^ 53) by (apply Z.pow_le_mono_r; lia).
    repeat split; lia.
  - destruct (iter_shr_1 n (shr_record_of_loc m l)) as (H0 & H1 & H2);
      [rewrite shr_m_of_loc; exact Hm |].
    rewrite shr_m_of_loc in H1, H2.
    set (m' := shr_m (iter_pos shr_1 n (shr_record_of_loc m l))) in *.
    split; [exact H0 |].
    assert (Hcase : m' = 0 \/ 0 < m') by lia.
    destruct Hcase as [Hz | Hp].
    + rewrite Hz. repeat split; lia.
    + split; [| split; [right | lia]].
      * assert (Hs : m' < 2 ^ (Zdigits2 m - Z.pos n))
          by (apply (shifted_below m' m (Z.pos n)); lia).
        assert (2 ^ (Zdigits2 m - Z.pos n) <= 2 ^ 53)
          by (apply Z.pow_le_mono_r; lia).
        lia.
      * replace (k - (e + Z.pos n)) with (k - e - Z.pos n) by lia.
        apply (shifted_below m' m (Z.pos n)); lia.
  - assert (Zdigits2 m <= 53) by lia.
    assert (2 ^ Zdigits2 m <= 2 ^ 53) by (apply Z.pow_le_mono_r; lia).
    repeat split; lia.
Qed.

Lemma round_nearest_even_bounds (m : Z) (l : location) :
  m <= round_nearest_even m l <= m + 1.
Proof.
  destruct l as [| []]; cbn [round_nearest_even]; try lia.
  destruct (Z.even m); lia.
Qed.


(** Rounding a positive number below [2^k] gives a finite number below
    [2^(k+1)], or zero: never an infinity, never a NaN; its exponent is at
    most the larger of the given one and the format's for that size. *)
Lemma binary_round_aux_below (sx : bool) (mx : positive) (ex k : Z) (lx : location) :
  Z.pos mx < 2 ^ (k - ex) -> -1074 <= k <= 1023 -> ex <= 971 ->
  Py.finite_below sx (k + 1) (binary_round_aux Py.prec Py.emax sx (Z.pos mx) ex lx)
  /\ Py.exponent_at_most (Z.max ex (Z.max (k - 52) (-1074)))
                         (binary_round_aux Py.prec Py.emax sx (Z.pos mx) ex lx).
Proof.
  intros Hlt Hk Hex.
  assert (Hkex : 1 <= k - ex).
  { assert (H0 : 0 <= k - ex) by (apply pow2_pos; lia).
    destruct (Z.eq_dec (k - ex) 0) as [Hz | Hz]; [| lia].
    rewrite Hz in Hlt. cbn in Hlt. lia. }
  unfold binary_round_aux.
  destruct (shr_fexp_bounds (Z.pos mx) ex k lx) as (H1 & H2 & H3 & H4); [lia | exact Hlt |].
  destruct (shr_fexp Py.prec Py.emax (Z.pos mx) ex lx) as [mrs' e'].
  cbn [fst snd] in H1, H2, H3, H4.
  pose proof (round_nearest_even_bounds (shr_m mrs') (loc_of_shr_record mrs')) as Hr.
  set (m2 := round_nearest_even (shr_m mrs') (loc_of_shr_record mrs')) in *.
  assert (Hm2 : m2 < 2 ^ (k + 1 - e')).
  { destruct H3 as [Hz | Hb].
    - assert (2 ^ 1 <= 2 ^ (k + 1 - e')) by (apply Z.pow_le_mono_r; lia).
      change (2 ^ 1) with 2 in *. lia.
    - assert (0 <= k - e') by (apply pow2_pos; lia).
      replace (k + 1 - e') with (Z.succ (k - e')) by lia.
      rewrite Z.pow_succ_r by lia. lia. }
  destruct (shr_fexp_bounds m2 e' (k + 1) loc_Exact) as (G1 & G2 & G3 & G4);
    [lia | exact Hm2 |].
  destruct (shr_fexp Py.prec Py.emax m2 e' loc_Exact) as [mrs2 e2].
  cbn [fst snd] in G1, G2, G3, G4.
  destruct (shr_m mrs2) as [| q | q] eqn:Hq;
    [split; [left; reflexivity | exact I] | | lia].
  assert (Hle : (e2 <=? Py.emax - Py.prec) = true)
    by (apply Z.leb_le; change (Py.emax - Py.prec) with 971; lia).
  rewrite Hle. split.
  - right. exists q, e2. split; [reflexivity |].
    destruct G3 as [G3 | G3]; [discriminate G3 | exact G3].
  - cbn [Py.exponent_at_most]. lia.
Qed.

(** Aligning a mantissa to a smaller exponent keeps the value. *)
Lemma iter_xO (d m : positive) : Z.pos (Pos.iter xO m d) = Z.pos m * 2 ^ Z.pos d.
Proof.
  induction d as [| d IH] using Pos.peano_ind.
  - cbn. lia.
  - rewrite Pos.iter_succ, Pos2Z.inj_succ, Z.pow_succ_r by lia.
    rewrite (Pos2Z.inj_xO (Pos.iter xO m d)), IH. lia.
Qed.

Lemma shl_align_spec (m : positive) (e e' : Z) :
  snd (shl_align m e e') <= e
  /\ Z.pos (fst (shl_align m e e')) = Z.pos m * 2 ^ (e - snd (shl_align m e e')).
Proof.
  unfold shl_align.
  destruct (e' - e) as [| d | d] eqn:Hd; cbn [fst snd].
  - rewrite Z.sub_diag. cbn. lia.
  - rewrite Z.sub_diag. cbn. lia.
  - rewrite iter_xO. replace (e - e') with (Z.pos d) by lia. lia.
Qed.

Lemma finite_below_mono (sx : bool) (k k' : Z) (x : Py.float) :
  k <= k' -> Py.finite_below sx k x -> Py.finite_below sx k' x.
Proof.
  intros Hk [Hz | (m & e & Hx & Hm)]; [left; exact Hz | right].
  exists m, e. split; [exact Hx |].
  assert (2 ^ (k - e) <= 2 ^ (k' - e)) by (apply Z.pow_le_mono_r; lia).
  lia.
Qed.

Lemma exponent_at_most_mono (c c' : Z) (x : Py.float) :
  c <= c' -> Py.exponent_at_most c x -> Py.exponent_at_most c' x.
Proof. intros Hc. destruct x; cbn [Py.exponent_at_most]; lia. Qed.

Lemma binary_round_below (sx : bool) (mx : positive) (ex k : Z) :
  Z.pos mx < 2 ^ (k - ex) -> -1074 <= k <= 1023 -> ex <= 971 ->
  Py.finite_below sx (k + 1) (binary_round Py.prec Py.emax sx mx ex)
  /\ Py.exponent_at_most (Z.max ex (Z.max (k - 52) (-1074)))
                         (binary_round Py.prec Py.emax sx mx ex).
Proof.
  intros Hlt Hk Hex. unfold binary_round.
  destruct (shl_align_spec mx ex
              (fexp Py.prec Py.emax (Z.pos (digits2_pos mx) + ex))) as [Hle Hval].
  destruct (shl_align mx ex (fexp Py.prec Py.emax (Z.pos (digits2_pos mx) + ex)))
    as [mz ez].
  cbn [fst snd] in Hle, Hval.
  destruct (binary_round_aux_below sx mz ez k loc_Exact) as [Hb He]; [| exact Hk | lia |].
  - rewrite Hval.
    assert (H0 : 0 <= k - ex) by (apply pow2_pos; lia).
    replace (k - ez) with ((k - ex) + (ex - ez)) by lia.
    rewrite Z.pow_add_r by lia.
    assert (0 < 2 ^ (ex - ez)) by (apply Z.pow_pos_nonneg; lia).
    nia.
  - split; [exact Hb |]. revert He. apply exponent_at_most_mono. lia.
Qed.

(** The sum of two non-negative finite floats below [2^k] is a
    non-negative finite float below [2^(k+2)]. *)
Lemma fadd_below (x y : Py.float) (k c : Z) :
  Py.finite_below false k x -> Py.exponent_at_most c x ->
  y = S754_zero true \/ Py.finite_below false k y -> Py.exponent_at_most c y ->
  -1075 <= k <= 1022 -> -1074 <= c <= 971 -> k - 51 <= c ->
  Py.finite_below false (k + 2) (Py.fadd x y)
  /\ Py.exponent_at_most c (Py.fadd x y).
Proof.
  intros Hx Hcx Hy Hcy Hk Hc Hkc.
  destruct Hx as [-> | (mx & ex & -> & Hmx)].
  - destruct Hy as [-> | [-> | (my & ey & -> & Hmy)]].
    + split; [left; reflexivity | exact I].
    + split; [left; reflexivity | exact I].
    + split; [| exact Hcy]. right. exists my, ey. split; [reflexivity |].
      assert (2 ^ (k - ey) <= 2 ^ (k + 2 - ey)) by (apply Z.pow_le_mono_r; lia).
      lia.
  - assert (Hx' : Py.finite_below false (k + 2) (S754_finite false mx ex)).
    { right. exists mx, ex. split; [reflexivity |].
      assert (2 ^ (k - ex) <= 2 ^ (k + 2 - ex)) by (apply Z.pow_le_mono_r; lia).
      lia. }
    destruct Hy as [-> | [-> | (my & ey & -> & Hmy)]];
      [split; [exact Hx' | exact Hcx] | split; [exact Hx' | exact Hcx] |].
    cbn [Py.exponent_at_most] in Hcx, Hcy.
    unfold Py.fadd, SFadd. cbn [cond_Zopp].
    destruct (shl_align_spec mx ex (Z.min ex ey)) as [Hle1 Hv1].
    destruct (shl_align_spec my ey (Z.min ex ey)) as [Hle2 Hv2].
    assert (Hs1 : snd (shl_align mx ex (Z.min ex ey)) = Z.min ex ey).
    { unfold shl_align. destruct (Z.min ex ey - ex) eqn:Hd; cbn [snd]; lia. }
    assert (Hs2 : snd (shl_align my ey (Z.min ex ey)) = Z.min ex ey).
    { unfold shl_align. destruct (Z.min ex ey - ey) eqn:Hd; cbn [snd]; lia. }
    rewrite Hs1 in Hv1. rewrite Hs2 in Hv2.
    set (a := fst (shl_align mx ex (Z.min ex ey))) in *.
    set (b := fst (shl_align my ey (Z.min ex ey))) in *.
    set (ez := Z.min ex ey) in *.
    change (Z.pos a + Z.pos b) with (Z.pos (a + b)).
    cbn [binary_normalize].
    replace (k + 2) with ((k + 1) + 1) by lia.
    destruct (binary_round_below false (a + b) ez (k + 1)) as [Hb He]; [| lia | lia |].
    + rewrite Pos2Z.inj_add, Hv1, Hv2.
      assert (H0x : 0 <= k - ex) by (apply pow2_pos; lia).
      assert (H0y : 0 <= k - ey) by (apply pow2_pos; lia).
      assert (Ha : Z.pos mx * 2 ^ (ex - ez) < 2 ^ (k - ez)).
      { replace (k - ez) with ((k - ex) + (ex - ez)) by lia.
        rewrite Z.pow_add_r by lia.
        assert (0 < 2 ^ (ex - ez)) by (apply Z.pow_pos_nonneg; lia). nia. }
      assert (Hb : Z.pos my * 2 ^ (ey - ez) < 2 ^ (k - ez)).
      { replace (k - ez) with ((k - ey) + (ey - ez)) by lia.
        rewrite Z.pow_add_r by lia.
        assert (0 < 2 ^ (ey - ez)) by (apply Z.pow_pos_nonneg; lia). nia. }
      replace (k + 1 - ez) with (Z.succ (k - ez)) by lia.
      rewrite Z.pow_succ_r by lia. lia.
    + split; [exact Hb |]. revert He. apply exponent_at_most_mono. lia.
Qed.

(** The product of two finite floats of bounded size is finite. *)
Lemma fmul_below (x y : Py.float) (sx sy : bool) (kx ky cx cy : Z) :
  Py.finite_below sx kx x -> Py.exponent_at_most cx x ->
  Py.finite_below sy ky y -> Py.exponent_at_most cy y ->
  -1074 <= kx + ky <= 1023 -> cx + cy <= 971 ->
  Py.finite_below (xorb sx sy) (kx + ky + 1) (Py.fmul x y)
  /\ Py.exponent_at_most (Z.max (cx + cy) (Z.max (kx + ky - 52) (-1074))) (Py.fmul x y).
Proof.
  intros Hx Hcx Hy Hcy Hk Hc.
  destruct Hx as [-> | (mx & ex & -> & Hmx)];
    destruct Hy as [-> | (my & ey & -> & Hmy)];
    try (split; [left; reflexivity | exact I]).
  cbn [Py.exponent_at_most] in Hcx, Hcy.
  unfold Py.fmul, SFmul.
  change (Z.pos (mx * my)) with (Z.pos mx * Z.pos my).
  destruct (binary_round_aux_below (xorb sx sy) (mx * my) (ex + ey) (kx + ky) loc_Exact)
    as [Hb He]; [| exact Hk | lia |].
  - rewrite Pos2Z.inj_mul.
    assert (H0x : 0 <= kx - ex) by (apply pow2_pos; lia).
    assert (H0y : 0 <= ky - ey) by (apply pow2_pos; lia).
    replace (kx + ky - (ex + ey)) with ((kx - ex) + (ky - ey)) by lia.
    rewrite Z.pow_add_r by lia. nia.
  - split; [exact Hb |]. revert He. apply exponent_at_most_mono. lia.
Qed.

(** The conversion of a small non-negative integer is finite. *)
Lemma float_of_int_below (n k : Z) :
  0 <= n < 2 ^ k -> 0 <= k <= 1023 ->
  Py.finite_below false (k + 1) (Py.float_of_int n)
  /\ Py.exponent_at_most (Z.max 0 (k - 52)) (Py.float_of_int n).
Proof.
  intros Hn Hk. unfold Py.float_of_int.
  destruct n as [| p | p]; [split; [left; reflexivity | exact I] | | lia].
  cbn [binary_normalize].
  destruct (binary_round_below false p 0 k) as [Hb He]; [| lia | lia |].
  - rewrite Z.sub_0_r. lia.
  - split; [exact Hb |]. revert He. apply exponent_at_most_mono. lia.
Qed.

(** A binary64 number between [0.0] and [1.0] is a zero, or positive,
    below 2 and with an exponent of at most -52. *)
Lemma unit_interval_below (x : Py.float) :
  valid_binary Py.prec Py.emax x = true ->
  between (Py.float_lit 0 1) x (Py.float_lit 10 1) ->
  (exists s, x = S754_zero s)
  \/ (exists m e, x = S754_finite false m e)
     /\ Py.finite_below false 1 x /\ Py.exponent_at_most (-52) x.
Proof.
  intros Hv [Hlo Hhi].
  assert (H0 : Py.float_lit 0 1 = S754_zero false) by (vm_compute; reflexivity).
  assert (H1 : Py.float_lit 10 1 = S754_finite false 4503599627370496 (-52))
    by (vm_compute; reflexivity).
  rewrite H0 in Hlo. rewrite H1 in Hhi.
  destruct x as [s | s | | s m e].
  - left. exists s. reflexivity.
  - destruct s; discriminate.
  - discriminate.
  - right. destruct s; [discriminate |].
    unfold Py.fleb, SFleb, SFcompare in Hhi.
    assert (He : e <= -52).
    { destruct (Z.compare_spec e (-52)); [lia | lia | discriminate]. }
    cbn [valid_binary] in Hv. unfold bounded, canonical_mantissa in Hv.
    apply andb_prop in Hv. destruct Hv as [Hcan _].
    apply Z.eqb_eq in Hcan.
    change (fexp Py.prec Py.emax (Z.pos (digits2_pos m) + e))
      with (Z.max (Z.pos (digits2_pos m) + e - 53) (-1074)) in Hcan.
    assert (Hd : Z.pos (digits2_pos m) <= 53) by lia.
    destruct (digits2_pos_bounds m) as [_ Hm].
    assert (2 ^ Z.pos (digits2_pos m) <= 2 ^ 53) by (apply Z.pow_le_mono_r; lia).
    assert (2 ^ 53 <= 2 ^ (1 - e)) by (apply Z.pow_le_mono_r; lia).
    split; [exists m, e; reflexivity |].
    split; [| exact He].
    right. exists m, e. split; [reflexivity | lia].
Qed.

(** The three weights, as floats. *)
Lemma weights_below :
  (Py.finite_below false 0 (Py.float_lit 5 1) /\ Py.exponent_at_most (-53) (Py.float_lit 5 1))
  /\ (Py.finite_below false (-1) (Py.float_lit 3 1)
      /\ Py.exponent_at_most (-54) (Py.float_lit 3 1))
  /\ (Py.finite_below false (-2) (Py.float_lit 2 1)
      /\ Py.exponent_at_most (-55) (Py.float_lit 2 1)).
Proof.
  assert (H5 : Py.float_lit 5 1 = S754_finite false 4503599627370496 (-53))
    by (vm_compute; reflexivity).
  assert (H3 : Py.float_lit 3 1 = S754_finite false 5404319552844595 (-54))
    by (vm_compute; reflexivity).
  assert (H2 : Py.float_lit 2 1 = S754_finite false 7205759403792794 (-55))
    by (vm_compute; reflexivity).
  rewrite H5, H3, H2.
  repeat split; try (cbn [Py.exponent_at_most]; lia);
    right; eexists; eexists; (split; [reflexivity | cbn; lia]).
Qed.

(** X14. For every form input within the widgets' ranges whose
    urbanization level is a binary64 number, the risk index is a float
    that is finite and not negative: [+0.0] or a positive number below
    [2^20].  It is never a NaN, an infinity or a negative number, whatever
    the fractional digits of the urbanization level. *)
Theorem risk_index_is_finite (r : RegionInput) :
  in_form_ranges r ->
  valid_binary Py.prec Py.emax (urban_level r) = true ->
  exists x : Py.float,
    risk_index r = Py.Float x /\ Py.finite_below false 20 x.
Proof.
  intros (Hds & Hpd & _ & Hul & _) Hvalid.
  destruct weights_below as ((W5 & C5) & (W3 & C3) & (W2 & C2)).
  exists (Py.fadd
            (Py.fadd (Py.fmul (Py.float_of_int (disaster_score r)) (Py.float_lit 5 1))
                     (Py.fmul (Py.float_of_int (pop_density r)) (Py.float_lit 3 1)))
            (Py.fmul (urban_level r) (Py.float_lit 2 1))).
  split; [reflexivity |].
  (* the first term *)
  destruct (float_of_int_below (disaster_score r) 4) as [Ids Cds];
    [change (2 ^ 4) with 16; lia | lia |].
  destruct (fmul_below _ _ false false _ _ _ _ Ids Cds W5 C5) as [IA CA]; [lia | lia |].
  (* the second term *)
  destruct (float_of_int_below (pop_density r) 15) as [Ipd Cpd];
    [change (2 ^ 15) with 32768; lia | lia |].
  destruct (fmul_below _ _ false false _ _ _ _ Ipd Cpd W3 C3) as [IB CB]; [lia | lia |].
  cbn [xorb] in IA, IB.
  (* their sum *)
  destruct (fadd_below
              (Py.fmul (Py.float_of_int (disaster_score r)) (Py.float_lit 5 1))
              (Py.fmul (Py.float_of_int (pop_density r)) (Py.float_lit 3 1))
              16 (-35)) as [IS CS]; try lia.
  { revert IA. apply finite_below_mono. lia. }
  { revert CA. apply exponent_at_most_mono. lia. }
  { right. revert IB. apply finite_below_mono. lia. }
  { revert CB. apply exponent_at_most_mono. lia. }
  (* the third term and the whole *)
  replace 20 with (18 + 2) by lia.
  destruct (unit_interval_below (urban_level r) Hvalid Hul)
    as [[s Hz] | ((m & e & Hfin) & Iul & Cul)].
  - rewrite Hz.
    assert (W2' : exists m2 e2, Py.float_lit 2 1 = S754_finite false m2 e2).
    { destruct W2 as [W2 | (m2 & e2 & W2 & _)]; [| exists m2, e2; exact W2].
      vm_compute in W2. discriminate W2. }
    destruct W2' as (m2 & e2 & ->).
    apply (fadd_below _ _ 18 (-33)); try lia.
    + exact IS.
    + revert CS. apply exponent_at_most_mono. lia.
    + destruct s; [left | right; left]; reflexivity.
    + destruct s; exact I.
  - destruct (fmul_below _ _ false false _ _ _ _ Iul Cul W2 C2) as [IC CC]; [lia | lia |].
    cbn [xorb] in IC.
    apply (fadd_below _ _ 18 (-33)); try lia.
    + exact IS.
    + revert CS. apply exponent_at_most_mono. lia.
    + right. revert IC. apply finite_below_mono. lia.
    + revert CC. apply exponent_at_most_mono. lia.
Qed.

Lemma risk_index_is_finite_witness :
  exists x : Py.float,
    risk_index example_input = Py.Float x /\ Py.finite_below false 20 x.
Proof.
  apply (risk_index_is_finite example_input example_in_ranges).
  vm_compute. reflexivity.
Defined.
